(** * The read-write transaction of [spanner_demo/snippets.py]

    A shallow embedding of [read_write_transaction] and of its transaction
    body [update_albums], over a model of the two sample tables and of the
    part of the client library the body calls: [transaction.read],
    [transaction.update], [database.run_in_transaction]. *)

From Stdlib Require Import ZArith Lia.
From stdpp Require Import gmap strings list fin_maps pretty sorting.

Local Open Scope Z_scope.

(** ** Python values and exceptions *)

(** The cells of a result row and of a mutation row: a Python [int]
    (unbounded), a [str], or [None] for an SQL NULL. *)
Inductive PyVal :=
  | PyInt (z : Z)
  | PyStr (s : string)
  | PyNone.

(** The exceptions that can leave the modelled code.  [ValueError] is the
    one the body raises itself; [IndexError] comes from [list(...)[0]] on an
    empty result; [TypeError] from comparing or adding [None] or a [str] to
    an [int] (Python 3); [NotFound], [AlreadyExists], [BadRequest] and
    [Aborted] are the client library's errors.  [BadRequest] is the class of
    the service's 400 answers (its subclasses are [InvalidArgument],
    [FailedPrecondition] and [OutOfRange]): what a mutation gets whose value
    does not fit its column. *)
Inductive PyExc :=
  | ValueError (msg : string)
  | IndexError
  | TypeError
  | NotFound
  | AlreadyExists
  | BadRequest
  | Aborted.

Inductive PyResult (A : Type) :=
  | Returned (a : A)
  | Raised (e : PyExc).
Arguments Returned {A} a.
Arguments Raised {A} e.

#[global] Instance PyVal_eq_dec : EqDecision PyVal.
Proof. solve_decision. Defined.
#[global] Instance PyExc_eq_dec : EqDecision PyExc.
Proof. solve_decision. Defined.

(** [a < b] on Python 3 values: defined on two ints only. *)
Definition py_lt (a b : PyVal) : PyResult bool :=
  match a, b with
  | PyInt x, PyInt y => Returned (x <? y)
  | _, _ => Raised TypeError
  end.

(** [a -= b] and [a += b] as the body uses them, on an int right operand. *)
Definition py_isub (a b : PyVal) : PyResult PyVal :=
  match a, b with
  | PyInt x, PyInt y => Returned (PyInt (x - y))
  | _, _ => Raised TypeError
  end.

Definition py_iadd (a b : PyVal) : PyResult PyVal :=
  match a, b with
  | PyInt x, PyInt y => Returned (PyInt (x + y))
  | PyStr x, PyStr y => Returned (PyStr (x +:+ y))
  | _, _ => Raised TypeError
  end.

(** [l[i]] on a Python list. *)
Definition py_index {A : Type} (l : list A) (i : nat) : PyResult A :=
  match l !! i with
  | Some x => Returned x
  | None => Raised IndexError
  end.

(** ['{}'.format(v)]. *)
Definition py_format (v : PyVal) : string :=
  match v with
  | PyInt z => pretty z
  | PyStr s => s
  | PyNone => "None"
  end.

(** ** The database: the two tables of [create_database], with the
    [MarketingBudget] column of [add_column]

    The schema is fixed: it is the one that the ALTER TABLE of line 172
    leaves, which [update_data] and [read_write_transaction] ask for in
    their docstrings.  The state between [create_database] and [add_column],
    where [Albums] has no such column, is not a [Database]; [insert_data],
    [read_data] and [query_data] do not name the column and are modelled on
    the schema with it. *)

Inductive Table := Singers | Albums.

Inductive Column :=
  | SingerId | FirstName | LastName | SingerInfo
  | AlbumId | AlbumTitle | MarketingBudget.

#[global] Instance Table_eq_dec : EqDecision Table.
Proof. solve_decision. Defined.
#[global] Instance Column_eq_dec : EqDecision Column.
Proof. solve_decision. Defined.

(** Non-key columns are nullable: [None] is NULL. *)
Record SingerRow := mkSinger {
  first_name : option string;
  last_name : option string;
  singer_info : option string }.

Record AlbumRow := mkAlbum {
  album_title : option string;
  marketing_budget : option Z }.

(** Singers are keyed by [SingerId], albums by [(SingerId, AlbumId)]. *)
Record Database := mkDatabase {
  singers : gmap Z SingerRow;
  albums : gmap (Z * Z) AlbumRow }.

Definition of_str (o : option string) : PyVal :=
  match o with Some s => PyStr s | None => PyNone end.

Definition of_int (o : option Z) : PyVal :=
  match o with Some z => PyInt z | None => PyNone end.

(** The value of column [c] in a row, [None] when the table has no such
    column. *)
Definition singer_cell (k : Z) (r : SingerRow) (c : Column) : option PyVal :=
  match c with
  | SingerId => Some (PyInt k)
  | FirstName => Some (of_str (first_name r))
  | LastName => Some (of_str (last_name r))
  | SingerInfo => Some (of_str (singer_info r))
  | _ => None
  end.

Definition album_cell (k : Z * Z) (r : AlbumRow) (c : Column) : option PyVal :=
  match c with
  | SingerId => Some (PyInt k.1)
  | AlbumId => Some (PyInt k.2)
  | AlbumTitle => Some (of_str (album_title r))
  | MarketingBudget => Some (of_int (marketing_budget r))
  | _ => None
  end.

(** A key of a key set is a Python tuple of ints. *)
Definition singer_key (key : list Z) : option Z :=
  match key with [s] => Some s | _ => None end.

Definition album_key (key : list Z) : option (Z * Z) :=
  match key with [s; a] => Some (s, a) | _ => None end.

(** The rows of [table] under [keys], projected on [columns]; a key with no
    row contributes nothing.  [None]: a malformed key or a column the table
    does not have. *)
Definition select_row (db : Database) (table : Table) (columns : list Column)
    (key : list Z) : option (list (list PyVal)) :=
  match table with
  | Singers =>
      k ← singer_key key;
      match singers db !! k with
      | Some r => row ← mapM (singer_cell k r) columns; Some [row]
      | None => Some []
      end
  | Albums =>
      k ← album_key key;
      match albums db !! k with
      | Some r => row ← mapM (album_cell k r) columns; Some [row]
      | None => Some []
      end
  end.

Definition select (db : Database) (table : Table) (columns : list Column)
    (keys : list (list Z)) : option (list (list PyVal)) :=
  mjoin <$> mapM (select_row db table columns) keys.

(** [limit=0] means no limit. *)
Definition apply_limit {A : Type} (limit : nat) (rows : list A) : list A :=
  match limit with O => rows | _ => take limit rows end.

(** ** Exceptions as a monad *)

#[global] Instance PyResult_ret : MRet PyResult := λ _ a, Returned a.
#[global] Instance PyResult_bind : MBind PyResult := λ _ _ f m,
  match m with
  | Returned a => f a
  | Raised e => Raised e
  end.

Definition of_option {A : Type} (e : PyExc) (o : option A) : PyResult A :=
  match o with Some a => Returned a | None => Raised e end.

(** ** Mutations and their application at commit *)

(** [insert] and [update] of a batch or a transaction:
    [table], [columns], [values]. *)
Inductive Mutation :=
  | Insert (table : Table) (columns : list Column) (values : list (list PyVal))
  | Update (table : Table) (columns : list Column) (values : list (list PyVal)).

(** The value a mutation row gives to column [c]. *)
Fixpoint row_get (columns : list Column) (vals : list PyVal) (c : Column)
    : option PyVal :=
  match columns, vals with
  | c' :: columns', v :: vals' =>
      if decide (c' = c) then Some v else row_get columns' vals' c
  | _, _ => None
  end.

Definition row_get_int (columns : list Column) (vals : list PyVal) (c : Column)
    : option Z :=
  match row_get columns vals c with
  | Some (PyInt z) => Some z
  | _ => None
  end.

Definition to_str (v : PyVal) : option (option string) :=
  match v with
  | PyStr s => Some (Some s)
  | PyNone => Some None
  | PyInt _ => None
  end.

(** The values of an INT64 column, as [MarketingBudget] is declared at
    line 172. *)
Definition INT64_MIN : Z := -9223372036854775808.
Definition INT64_MAX : Z := 9223372036854775807.

Definition int64 (z : Z) : Prop := INT64_MIN ≤ z ≤ INT64_MAX.

#[global] Instance int64_dec z : Decision (int64 z).
Proof. unfold int64. apply _. Defined.

Definition is_int64 (z : Z) : bool := bool_decide (int64 z).

(** A Python [int] is a value of an INT64 column only within its range;
    Python's own ints have no bound. *)
Definition to_int64 (v : PyVal) : option (option Z) :=
  match v with
  | PyInt z => if is_int64 z then Some (Some z) else None
  | PyNone => Some None
  | PyStr _ => None
  end.

(** Writing one cell: key columns only name the row, the other columns take
    a value of their type or NULL; a budget outside INT64 is no value of
    its column. *)
Definition set_singer_cell (r : SingerRow) (c : Column) (v : PyVal)
    : option SingerRow :=
  match c with
  | SingerId => Some r
  | FirstName => s ← to_str v; Some (mkSinger s (last_name r) (singer_info r))
  | LastName => s ← to_str v; Some (mkSinger (first_name r) s (singer_info r))
  | SingerInfo => s ← to_str v; Some (mkSinger (first_name r) (last_name r) s)
  | _ => None
  end.

Definition set_album_cell (r : AlbumRow) (c : Column) (v : PyVal)
    : option AlbumRow :=
  match c with
  | SingerId | AlbumId => Some r
  | AlbumTitle => s ← to_str v; Some (mkAlbum s (marketing_budget r))
  | MarketingBudget => b ← to_int64 v; Some (mkAlbum (album_title r) b)
  | _ => None
  end.

Fixpoint set_cells {R : Type} (set : R → Column → PyVal → option R) (r : R)
    (columns : list Column) (vals : list PyVal) : option R :=
  match columns, vals with
  | [], [] => Some r
  | c :: columns', v :: vals' =>
      r' ← set r c v; set_cells set r' columns' vals'
  | _, _ => None
  end.

(** One row of a mutation.  An update needs the row to exist, an insert
    needs it not to; an album is interleaved in its singer, which has to
    exist.  Columns an insert does not list are NULL. *)
Definition write_row (insert : bool) (table : Table) (columns : list Column)
    (vals : list PyVal) (db : Database) : PyResult Database :=
  match table with
  | Singers =>
      s ← of_option BadRequest (row_get_int columns vals SingerId);
      r ← match singers db !! s, insert with
          | Some r, false => Returned r
          | None, true => Returned (mkSinger None None None)
          | Some _, true => Raised AlreadyExists
          | None, false => Raised NotFound
          end;
      r' ← of_option BadRequest (set_cells set_singer_cell r columns vals);
      Returned (mkDatabase (<[s := r']> (singers db)) (albums db))
  | Albums =>
      s ← of_option BadRequest (row_get_int columns vals SingerId);
      a ← of_option BadRequest (row_get_int columns vals AlbumId);
      r ← match albums db !! (s, a), insert with
          | Some r, false => Returned r
          | None, true =>
              if decide (is_Some (singers db !! s))
              then Returned (mkAlbum None None) else Raised NotFound
          | Some _, true => Raised AlreadyExists
          | None, false => Raised NotFound
          end;
      r' ← of_option BadRequest (set_cells set_album_cell r columns vals);
      Returned (mkDatabase (singers db) (<[(s, a) := r']> (albums db)))
  end.

Fixpoint write_rows (insert : bool) (table : Table) (columns : list Column)
    (values : list (list PyVal)) (db : Database) : PyResult Database :=
  match values with
  | [] => Returned db
  | vals :: values' =>
      db' ← write_row insert table columns vals db;
      write_rows insert table columns values' db'
  end.

Definition apply_mutation (m : Mutation) (db : Database) : PyResult Database :=
  match m with
  | Insert table columns values => write_rows true table columns values db
  | Update table columns values => write_rows false table columns values db
  end.

(** All the mutations apply, in order, or none does. *)
Fixpoint apply_mutations (ms : list Mutation) (db : Database)
    : PyResult Database :=
  match ms with
  | [] => Returned db
  | m :: ms' => db' ← apply_mutation m db; apply_mutations ms' db'
  end.

(** ** The transaction object *)

(** What the program does, in program order: the calls on the transaction
    and the lines printed. *)
Inductive Event :=
  | EvRead (table : Table) (columns : list Column) (keys : list (list Z))
      (limit : nat)
  | EvUpdate (table : Table) (columns : list Column)
      (values : list (list PyVal))
  | EvPrint (line : string).

(** A transaction reads the database as it was when it began and buffers
    its mutations until commit. *)
Record Transaction := mkTransaction {
  snapshot : Database;
  staged : list Mutation;
  trace : list Event }.

Definition begin (db : Database) : Transaction := mkTransaction db [] [].

Definition emit (ev : Event) (t : Transaction) : Transaction :=
  mkTransaction (snapshot t) (staged t) (trace t ++ [ev]).

Definition stage (m : Mutation) (t : Transaction) : Transaction :=
  mkTransaction (snapshot t) (staged t ++ [m]) (trace t).

(** Code that runs inside a transaction and may raise. *)
Definition Txn (A : Type) : Type := Transaction → PyResult A * Transaction.

#[global] Instance Txn_ret : MRet Txn := λ _ a t, (Returned a, t).
#[global] Instance Txn_bind : MBind Txn := λ _ _ f m t,
  match m t with
  | (Returned a, t') => f a t'
  | (Raised e, t') => (Raised e, t')
  end.

Definition raise {A : Type} (e : PyExc) : Txn A := λ t, (Raised e, t).

Definition lift {A : Type} (r : PyResult A) : Txn A := λ t, (r, t).

(** [transaction.read(table, columns, keyset=KeySet(keys), limit)], consumed
    by [list(...)]. *)
Definition transaction_read (table : Table) (columns : list Column)
    (keys : list (list Z)) (limit : nat) : Txn (list (list PyVal)) := λ t,
  let t' := emit (EvRead table columns keys limit) t in
  match select (snapshot t) table columns keys with
  | Some rows => (Returned (apply_limit limit rows), t')
  | None => (Raised BadRequest, t')
  end.

(** [transaction.update(table, columns, values)]. *)
Definition transaction_update (table : Table) (columns : list Column)
    (values : list (list PyVal)) : Txn unit := λ t,
  (Returned tt,
   stage (Update table columns values) (emit (EvUpdate table columns values) t)).

Definition print (line : string) : Txn unit := λ t,
  (Returned tt, emit (EvPrint line) t).

(** ** [update_albums], lines 119-159 *)

Definition update_albums : Txn unit :=
  (* Read the second album budget. *)
  second_album_result ← transaction_read Albums [MarketingBudget] [[2; 2]] 1;
  second_album_row ← lift (py_index second_album_result 0);
  second_album_budget ← lift (py_index second_album_row 0);
  let transfer_amount := PyInt 200000 in
  too_low ← lift (py_lt second_album_budget (PyInt 300000));
  if (too_low : bool) then
    raise (ValueError "The second album doesn't have enough funds to transfer")
  else
    (* Read the first album's budget. *)
    first_album_result ← transaction_read Albums [MarketingBudget] [[1; 1]] 1;
    first_album_row ← lift (py_index first_album_result 0);
    first_album_budget ← lift (py_index first_album_row 0);
    (* Update the budgets. *)
    second_album_budget ← lift (py_isub second_album_budget transfer_amount);
    first_album_budget ← lift (py_iadd first_album_budget transfer_amount);
    print ("Setting first album's budget to " +:+ py_format first_album_budget
           +:+ " and the second album's budget to "
           +:+ py_format second_album_budget +:+ ".");;
    (* Update the rows. *)
    transaction_update Albums [SingerId; AlbumId; MarketingBudget]
      [[PyInt 1; PyInt 1; first_album_budget];
       [PyInt 2; PyInt 2; second_album_budget]].

(** ** [database.run_in_transaction] *)

(** The store's answer to a commit. *)
Inductive Verdict := CommitOk | CommitConflict.

(** The library's retry loop: begin, call [func], commit.  An exception of
    [func] rolls the transaction back and is raised again.  A conflict at
    commit drops the staged mutations and runs [func] again on a new
    transaction, until the library's deadline has passed; then [Aborted] is
    raised.  A commit that the store refuses for its mutations (a row that
    is missing, a value that is no value of its column) raises the store's
    error and writes nothing.

    [conflicts] lists, for each attempt that the store aborts and the library
    retries, the database as the conflicting transactions left it; [last] is
    the store's answer to the attempt after these, which is not retried. *)
Fixpoint run_in_transaction {A : Type} (func : Txn A)
    (conflicts : list Database) (last : Verdict) (db : Database)
    : PyResult A * Database * list Event :=
  match func (begin db) with
  | (Raised e, t) => (Raised e, db, trace t)
  | (Returned a, t) =>
      match conflicts with
      | next :: conflicts' =>
          let '(r, db', tr) := run_in_transaction func conflicts' last next in
          (r, db', trace t ++ tr)
      | [] =>
          match last with
          | CommitConflict => (Raised Aborted, db, trace t)
          | CommitOk =>
              match apply_mutations (staged t) db with
              | Returned db' => (Returned a, db', trace t)
              | Raised e => (Raised e, db, trace t)
              end
          end
      end
  end.

(** ** The sample functions *)

(** The databases of the service, by instance id and database id. *)
Definition on_database {A : Type} (instance_id database_id : string)
    (f : Database → PyResult A * Database * list Event)
    (w : gmap (string * string) Database)
    : PyResult A * gmap (string * string) Database * list Event :=
  match w !! (instance_id, database_id) with
  | None => (Raised NotFound, w, [])
  | Some db =>
      let '(r, db', out) := f db in
      (r, <[(instance_id, database_id) := db']> w, out)
  end.

(** A batch commits its mutations when the [with] block ends. *)
Definition batch (ms : list Mutation) (done : string) (db : Database)
    : PyResult unit * Database * list Event :=
  match apply_mutations ms db with
  | Returned db' => (Returned tt, db', [EvPrint done])
  | Raised e => (Raised e, db, [])
  end.

Definition INSTANCE_ID : string := "test-instance".
Definition DATABASE_ID : string := "example-db".

(** [insert_data], lines 39-70. *)
Definition insert_data (instance_id database_id : string) :=
  on_database instance_id database_id (batch
    [Insert Singers [SingerId; FirstName; LastName]
       [[PyInt 1; PyStr "Marc"; PyStr "Richards"];
        [PyInt 2; PyStr "Catalina"; PyStr "Smith"];
        [PyInt 3; PyStr "Alice"; PyStr "Trentor"];
        [PyInt 4; PyStr "Lea"; PyStr "Martin"];
        [PyInt 5; PyStr "David"; PyStr "Lomond"]];
     Insert Albums [SingerId; AlbumId; AlbumTitle]
       [[PyInt 1; PyInt 1; PyStr "Total Junk"];
        [PyInt 1; PyInt 2; PyStr "Go, Go, Go"];
        [PyInt 2; PyInt 1; PyStr "Green"];
        [PyInt 2; PyInt 2; PyStr "Forever Hold Your Peace"];
        [PyInt 2; PyInt 3; PyStr "Terrified"]]]
    "Inserted data.").

(** [update_data], lines 179-202. *)
Definition update_data (instance_id database_id : string) :=
  on_database instance_id database_id (batch
    [Update Albums [SingerId; AlbumId; MarketingBudget]
       [[PyInt 1; PyInt 1; PyInt 100000];
        [PyInt 2; PyInt 2; PyInt 500000]]]
    "Updated data.").

(** [read_write_transaction], lines 104-163. *)
Definition read_write_transaction (instance_id database_id : string)
    (conflicts : list Database) (last : Verdict) :=
  on_database instance_id database_id (λ db,
    let '(r, db', out) := run_in_transaction update_albums conflicts last db in
    match r with
    | Returned _ => (Returned tt, db', out ++ [EvPrint "Transaction complete."])
    | Raised e => (Raised e, db', out)
    end).

(** ** The sample data *)

Definition empty_database : Database := mkDatabase ∅ ∅.

(** The database after [insert_data] and [update_data]. *)
Definition sample_singers : gmap Z SingerRow :=
  list_to_map
    [(1, mkSinger (Some "Marc") (Some "Richards") None);
     (2, mkSinger (Some "Catalina") (Some "Smith") None);
     (3, mkSinger (Some "Alice") (Some "Trentor") None);
     (4, mkSinger (Some "Lea") (Some "Martin") None);
     (5, mkSinger (Some "David") (Some "Lomond") None)].

Definition sample_albums (first second : option Z) : gmap (Z * Z) AlbumRow :=
  list_to_map
    [((1, 1), mkAlbum (Some "Total Junk") first);
     ((1, 2), mkAlbum (Some "Go, Go, Go") None);
     ((2, 1), mkAlbum (Some "Green") None);
     ((2, 2), mkAlbum (Some "Forever Hold Your Peace") second);
     ((2, 3), mkAlbum (Some "Terrified") None)].

Definition sample_database (first second : option Z) : Database :=
  mkDatabase sample_singers (sample_albums first second).

Definition sample_world (db : Database) : gmap (string * string) Database :=
  {[ (INSTANCE_ID, DATABASE_ID) := db ]}.

(** ** Vocabulary of the statements *)

(** The budget of the album under key [k]: [None] when there is no such row
    or its budget is NULL. *)
Definition budget (db : Database) (k : Z * Z) : option Z :=
  r ← albums db !! k; marketing_budget r.

(** The exception of line 133. *)
Definition insufficient_funds : PyExc :=
  ValueError "The second album doesn't have enough funds to transfer".

(** The two reads of the body, as they appear in the trace. *)
Definition read_second : Event := EvRead Albums [MarketingBudget] [[2; 2]] 1.
Definition read_first : Event := EvRead Albums [MarketingBudget] [[1; 1]] 1.

Definition is_update (ev : Event) : bool :=
  match ev with EvUpdate _ _ _ => true | _ => false end.

(** The database that the last attempt of a run reads, when every earlier
    attempt reached its commit. *)
Definition last_read (conflicts : list Database) (db : Database) : Database :=
  default db (last conflicts).

(** The result of a run with its trace extended in front. *)
Definition after {A B : Type} (pre : list Event) (x : A * B * list Event)
    : A * B * list Event :=
  let '(r, db, tr) := x in (r, db, pre ++ tr).

(** The transaction as the body leaves it when it stops after the first
    read, and after the second. *)
Definition stopped_after_second (db : Database) : Transaction :=
  mkTransaction db [] [read_second].

Definition stopped_after_first (db : Database) : Transaction :=
  mkTransaction db [] [read_second; read_first].

(** The values of line 157, for budgets [first] and [second] as read. *)
Definition new_values (first second : Z) : list (list PyVal) :=
  [[PyInt 1; PyInt 1; PyInt (first + 200000)];
   [PyInt 2; PyInt 2; PyInt (second - 200000)]].

Definition key_and_budget : list Column := [SingerId; AlbumId; MarketingBudget].

(** The line printed at line 147. *)
Definition setting_line (first second : Z) : string :=
  "Setting first album's budget to " +:+ pretty (first + 200000)
  +:+ " and the second album's budget to "
  +:+ pretty (second - 200000) +:+ ".".

(** The transaction as the body leaves it when it returns. *)
Definition completed (db : Database) (first second : Z) : Transaction :=
  mkTransaction db
    [Update Albums key_and_budget (new_values first second)]
    [read_second; read_first; EvPrint (setting_line first second);
     EvUpdate Albums key_and_budget (new_values first second)].

(** The database with the budget of the album under [k] set to [b], when
    there is such an album. *)
Definition with_budget (k : Z * Z) (b : Z) (db : Database) : Database :=
  mkDatabase (singers db)
    (alter (λ r, mkAlbum (album_title r) (Some b)) k (albums db)).

(** The database after the transfer between albums that hold [first] and
    [second]. *)
Definition transferred (db : Database) (first second : Z) : Database :=
  with_budget (2, 2) (second - 200000)
    (with_budget (1, 1) (first + 200000) db).

(** The two values of line 157 are values of the INT64 column. *)
Definition fits (first second : Z) : bool :=
  is_int64 (first + 200000) && is_int64 (second - 200000).

(** What a read of the budget of row [k] gives: nothing when there is no
    row, else the budget or NULL. *)
Definition read_budget (db : Database) (k : Z * Z) : option (option Z) :=
  marketing_budget <$> albums db !! k.

(** The result, the staged mutations and the trace of the body, from what
    its two reads give. *)
Definition outcome_of_reads (second first : option (option Z))
    : PyResult unit * list Mutation * list Event :=
  match second with
  | None => (Raised IndexError, [], [read_second])
  | Some None => (Raised TypeError, [], [read_second])
  | Some (Some second) =>
      if second <? 300000
      then (Raised insufficient_funds, [], [read_second])
      else
        match first with
        | None => (Raised IndexError, [], [read_second; read_first])
        | Some None => (Raised TypeError, [], [read_second; read_first])
        | Some (Some first) =>
            (Returned tt,
             [Update Albums key_and_budget (new_values first second)],
             [read_second; read_first; EvPrint (setting_line first second);
              EvUpdate Albums key_and_budget (new_values first second)])
        end
  end.

Definition observed (x : PyResult unit * Transaction)
    : PyResult unit * list Mutation * list Event :=
  (x.1, staged x.2, trace x.2).

(** The six ways the body can end, by what the database holds. *)
Inductive BodyCase (db : Database) : PyResult unit → Transaction → Prop :=
  | NoSecond :
      albums db !! (2, 2) = None →
      BodyCase db (Raised IndexError) (stopped_after_second db)
  | NullSecond r2 :
      albums db !! (2, 2) = Some r2 → marketing_budget r2 = None →
      BodyCase db (Raised TypeError) (stopped_after_second db)
  | TooLow second :
      budget db (2, 2) = Some second → second < 300000 →
      BodyCase db (Raised insufficient_funds) (stopped_after_second db)
  | NoFirst second :
      budget db (2, 2) = Some second → 300000 ≤ second →
      albums db !! (1, 1) = None →
      BodyCase db (Raised IndexError) (stopped_after_first db)
  | NullFirst second r1 :
      budget db (2, 2) = Some second → 300000 ≤ second →
      albums db !! (1, 1) = Some r1 → marketing_budget r1 = None →
      BodyCase db (Raised TypeError) (stopped_after_first db)
  | Completes first second :
      budget db (1, 1) = Some first → budget db (2, 2) = Some second →
      300000 ≤ second →
      BodyCase db (Returned tt) (completed db first second).

(** ** The operation as the specification words it *)

Module Spec.

Record TransferRequest := mkRequest {
  source : Z * Z;
  destination : Z * Z;
  amount : Z;
  threshold : Z }.

Inductive AbortReason := InsufficientFunds | StoreConflict.

Inductive TransactionOutcome :=
  | Committed (newSourceBalance newDestinationBalance : Z)
  | Aborted (reason : AbortReason)
  | RowNotFound.

(** Follows the specification's steps 1 to 6 on a store that maps a row key
    to the row's balance. *)
Definition execute (store : gmap (Z * Z) Z) (request : TransferRequest)
    : TransactionOutcome * gmap (Z * Z) Z :=
  match store !! destination request with
  | None => (RowNotFound, store)
  | Some destination_balance =>
      if destination_balance <? threshold request
      then (Aborted InsufficientFunds, store)
      else
        match store !! source request with
        | None => (RowNotFound, store)
        | Some source_balance =>
            let newDestinationBalance := destination_balance - amount request in
            let newSourceBalance := source_balance + amount request in
            (Committed newSourceBalance newDestinationBalance,
             <[destination request := newDestinationBalance]>
               (<[source request := newSourceBalance]> store))
        end
  end.

End Spec.

(** The request that the code has built in. *)
Definition fixed_request : Spec.TransferRequest :=
  Spec.mkRequest (1, 1) (2, 2) 200000 300000.

(** The balances of a database: the budgets of the albums that have one. *)
Definition balances (db : Database) : gmap (Z * Z) Z :=
  omap marketing_budget (albums db).

(** How the code reports an outcome of the specification's operation: it
    returns, or an exception leaves [read_write_transaction].  A commit is
    the store's to accept: [final] is its answer on conflicts, and the two
    new balances have to be values of the INT64 column. *)
Definition reported (final : Verdict) (outcome : Spec.TransactionOutcome)
    : PyResult unit :=
  match outcome with
  | Spec.Committed newSourceBalance newDestinationBalance =>
      match final with
      | CommitConflict => Raised Aborted
      | CommitOk =>
          if is_int64 newSourceBalance && is_int64 newDestinationBalance
          then Returned tt else Raised BadRequest
      end
  | Spec.Aborted Spec.InsufficientFunds => Raised insufficient_funds
  | Spec.Aborted Spec.StoreConflict => Raised Aborted
  | Spec.RowNotFound => Raised IndexError
  end.

(** The row under [k] exists and its budget is NULL. *)
Definition unpopulated (db : Database) (k : Z * Z) : bool :=
  match albums db !! k with
  | Some r => match marketing_budget r with Some _ => false | None => true end
  | None => false
  end.

(** The two rows of the transfer hold a budget when they exist, as they do
    after [update_data]. *)
Definition populated (db : Database) : Prop :=
  unpopulated db (1, 1) = false ∧ unpopulated db (2, 2) = false.

(** ** Snapshot reads: [read_data] and [query_data] *)

(** Primary key order of [Albums]: by [SingerId], then by [AlbumId]. *)
Definition key_le (a b : Z * Z) : Prop :=
  a.1 < b.1 ∨ (a.1 = b.1 ∧ a.2 ≤ b.2).

#[global] Instance key_le_dec : RelDecision key_le.
Proof. intros a b. unfold key_le. apply _. Defined.

(** The keys of the albums, in primary key order. *)
Definition album_keys (db : Database) : list (Z * Z) :=
  merge_sort key_le (elements (dom (albums db))).

Definition key_tuple (k : Z * Z) : list Z := [k.1; k.2].

Definition title_columns : list Column := [SingerId; AlbumId; AlbumTitle].

(** [snapshot.read(table='Albums', columns, keyset=KeySet(all_=True))],
    consumed by the [for] loop: every row, in primary key order. *)
Definition snapshot_read_all_albums (columns : list Column) (db : Database)
    : PyResult (list (list PyVal)) :=
  of_option BadRequest
    (select db Albums columns (key_tuple <$> album_keys db)).

(** [snapshot.execute_sql('SELECT SingerId, AlbumId, AlbumTitle FROM
    Albums')]: the three columns of every album.  The statement has no
    ORDER BY; [scan] is the order in which the engine yields the rows. *)
Definition execute_select_albums (scan : list (Z * Z) → list (Z * Z))
    (db : Database) : PyResult (list (list PyVal)) :=
  of_option BadRequest
    (select db Albums title_columns
       (key_tuple <$> scan (elements (dom (albums db))))).

(** The format string of lines 85 and 102 applied to the cells of a row:
    three replacement fields, [IndexError] on a shorter row, further cells
    are ignored. *)
Definition format_album (row : list PyVal) : PyResult string :=
  match row with
  | a :: b :: c :: _ =>
      Returned ("SingerId: " +:+ py_format a +:+ ", AlbumId: " +:+ py_format b
                +:+ ", AlbumTitle: " +:+ py_format c)
  | _ => Raised IndexError
  end.

(** [for row in results: print(...)]; the lines printed before an exception
    stay printed. *)
Fixpoint print_rows (rows : list (list PyVal)) : PyResult unit * list Event :=
  match rows with
  | [] => (Returned tt, [])
  | row :: rows' =>
      match format_album row with
      | Raised e => (Raised e, [])
      | Returned line =>
          let '(r, out) := print_rows rows' in (r, EvPrint line :: out)
      end
  end.

Definition print_results (results : PyResult (list (list PyVal)))
    (db : Database) : PyResult unit * Database * list Event :=
  match results with
  | Raised e => (Raised e, db, [])
  | Returned rows => let '(r, out) := print_rows rows in (r, db, out)
  end.

(** [read_data], lines 88-102. *)
Definition read_data (instance_id database_id : string) :=
  on_database instance_id database_id (λ db,
    print_results (snapshot_read_all_albums title_columns db) db).

(** [query_data], lines 74-85. *)
Definition query_data (scan : list (Z * Z) → list (Z * Z))
    (instance_id database_id : string) :=
  on_database instance_id database_id (λ db,
    print_results (execute_select_albums scan db) db).

(** The title of the album under [k]: [None] when there is no such row or
    its title is NULL. *)
Definition title (db : Database) (k : Z * Z) : option string :=
  r ← albums db !! k; album_title r.

(** The line that the two samples print for the album under [k]. *)
Definition album_line (db : Database) (k : Z * Z) : Event :=
  EvPrint ("SingerId: " +:+ pretty k.1 +:+ ", AlbumId: " +:+ pretty k.2
           +:+ ", AlbumTitle: " +:+ py_format (of_str (title db k))).

(** The line printed at line 163. *)
Definition complete_line : Event := EvPrint "Transaction complete.".

(** Both albums hold a budget and album (2,2) has enough for a transfer. *)
Definition can_transfer (db : Database) : bool :=
  match budget db (1, 1), budget db (2, 2) with
  | Some _, Some second => bool_decide (300000 ≤ second)
  | _, _ => false
  end.

(** The calls of [update] in a trace. *)
Definition update_calls (out : list Event) : list Event :=
  filter (λ ev, is_update ev = true) out.

(** ** The sample functions one after the other *)

(** [read_write_transaction] called [n] times in a row, without conflicts,
    up to the first exception. *)
Fixpoint transfer_times (n : nat) (instance_id database_id : string)
    (w : gmap (string * string) Database)
    : PyResult unit * gmap (string * string) Database * list Event :=
  match n with
  | O => (Returned tt, w, [])
  | S n' =>
      match read_write_transaction instance_id database_id [] CommitOk w with
      | (Returned _, w', out) =>
          after out (transfer_times n' instance_id database_id w')
      | (Raised e, w', out) => (Raised e, w', out)
      end
  end.

(** A row of the [values] of [insert_data], for [Singers] and for
    [Albums]. *)
Definition singer_row (x : Z * string * string) : list PyVal :=
  [PyInt x.1.1; PyStr x.1.2; PyStr x.2].

Definition album_row (x : Z * Z * string) : list PyVal :=
  [PyInt x.1.1; PyInt x.1.2; PyStr x.2].

Definition name_columns : list Column := [SingerId; FirstName; LastName].

(** The rows that [insert_data] inserts, lines 54-58 and 64-68. *)
Definition sample_singer_rows : list (Z * string * string) :=
  [(1, "Marc", "Richards"); (2, "Catalina", "Smith"); (3, "Alice", "Trentor");
   (4, "Lea", "Martin"); (5, "David", "Lomond")].

Definition sample_album_rows : list (Z * Z * string) :=
  [(1, 1, "Total Junk"); (1, 2, "Go, Go, Go"); (2, 1, "Green");
   (2, 2, "Forever Hold Your Peace"); (2, 3, "Terrified")].

Definition add_singer (m : gmap Z SingerRow) (x : Z * string * string)
    : gmap Z SingerRow :=
  <[x.1.1 := mkSinger (Some x.1.2) (Some x.2) None]> m.

Definition add_album (m : gmap (Z * Z) AlbumRow) (x : Z * Z * string)
    : gmap (Z * Z) AlbumRow :=
  <[(x.1.1, x.1.2) := mkAlbum (Some x.2) None]> m.

(** The keys that [insert_data] inserts. *)
Definition inserted_singers : list Z := [1; 2; 3; 4; 5].
Definition inserted_albums : list (Z * Z) :=
  [(1, 1); (1, 2); (2, 1); (2, 2); (2, 3)].

(** The database with the rows of [insert_data] added. *)
Definition with_sample_rows (db : Database) : Database :=
  mkDatabase
    (<[5 := mkSinger (Some "David") (Some "Lomond") None]>
       (<[4 := mkSinger (Some "Lea") (Some "Martin") None]>
          (<[3 := mkSinger (Some "Alice") (Some "Trentor") None]>
             (<[2 := mkSinger (Some "Catalina") (Some "Smith") None]>
                (<[1 := mkSinger (Some "Marc") (Some "Richards") None]>
                   (singers db))))))
    (<[(2, 3) := mkAlbum (Some "Terrified") None]>
       (<[(2, 2) := mkAlbum (Some "Forever Hold Your Peace") None]>
          (<[(2, 1) := mkAlbum (Some "Green") None]>
             (<[(1, 2) := mkAlbum (Some "Go, Go, Go") None]>
                (<[(1, 1) := mkAlbum (Some "Total Junk") None]>
                   (albums db)))))).

(** The database with the two budgets of [update_data]. *)
Definition with_sample_budgets (db : Database) : Database :=
  with_budget (2, 2) 500000 (with_budget (1, 1) 100000 db).

(** * Properties *)

(** ** The sample data is what the sample functions produce *)

Example insert_data_sample :
  insert_data INSTANCE_ID DATABASE_ID (sample_world empty_database)
  = (Returned tt, sample_world (sample_database None None),
     [EvPrint "Inserted data."]).
Proof. vm_compute. reflexivity. Qed.

Example update_data_sample :
  update_data INSTANCE_ID DATABASE_ID (sample_world (sample_database None None))
  = (Returned tt, sample_world (sample_database (Some 100000) (Some 500000)),
     [EvPrint "Updated data."]).
Proof. vm_compute. reflexivity. Qed.

Example read_write_transaction_sample :
  read_write_transaction INSTANCE_ID DATABASE_ID [] CommitOk
    (sample_world (sample_database (Some 100000) (Some 500000)))
  = (Returned tt, sample_world (sample_database (Some 300000) (Some 300000)),
     [EvRead Albums [MarketingBudget] [[2; 2]] 1;
      EvRead Albums [MarketingBudget] [[1; 1]] 1;
      EvPrint "Setting first album's budget to 300000 and the second album's budget to 300000.";
      EvUpdate Albums [SingerId; AlbumId; MarketingBudget]
        [[PyInt 1; PyInt 1; PyInt 300000]; [PyInt 2; PyInt 2; PyInt 300000]];
      EvPrint "Transaction complete."]).
Proof. vm_compute. reflexivity. Qed.


(** ** The body, case by case *)

Ltac run_body :=
  unfold update_albums, mbind, Txn_bind, transaction_read, select, budget;
  cbn.

Lemma update_albums_no_second db :
  albums db !! (2, 2) = None →
  update_albums (begin db) = (Raised IndexError, stopped_after_second db).
Proof. intros H. run_body. rewrite H. reflexivity. Qed.

Lemma update_albums_null_second db r2 :
  albums db !! (2, 2) = Some r2 → marketing_budget r2 = None →
  update_albums (begin db) = (Raised TypeError, stopped_after_second db).
Proof. intros H N. run_body. rewrite H. cbn. rewrite N. reflexivity. Qed.

Lemma update_albums_too_low db second :
  budget db (2, 2) = Some second → second < 300000 →
  update_albums (begin db) = (Raised insufficient_funds, stopped_after_second db).
Proof.
  unfold budget. intros H L.
  destruct (albums db !! (2, 2)) as [r2|] eqn:E; [cbn in H | discriminate].
  run_body. rewrite E. cbn. rewrite H. cbn.
  destruct (Z.ltb_spec second 300000); [reflexivity | lia].
Qed.

Lemma update_albums_no_first db second :
  budget db (2, 2) = Some second → 300000 ≤ second →
  albums db !! (1, 1) = None →
  update_albums (begin db) = (Raised IndexError, stopped_after_first db).
Proof.
  unfold budget. intros H L N.
  destruct (albums db !! (2, 2)) as [r2|] eqn:E; [cbn in H | discriminate].
  run_body. rewrite E. cbn. rewrite H. cbn.
  destruct (Z.ltb_spec second 300000); [lia |].
  cbn. rewrite N. reflexivity.
Qed.

Lemma update_albums_null_first db second r1 :
  budget db (2, 2) = Some second → 300000 ≤ second →
  albums db !! (1, 1) = Some r1 → marketing_budget r1 = None →
  update_albums (begin db) = (Raised TypeError, stopped_after_first db).
Proof.
  unfold budget. intros H L N1 N2.
  destruct (albums db !! (2, 2)) as [r2|] eqn:E; [cbn in H | discriminate].
  run_body. rewrite E. cbn. rewrite H. cbn.
  destruct (Z.ltb_spec second 300000); [lia |].
  cbn. rewrite N1. cbn. rewrite N2. reflexivity.
Qed.

Lemma update_albums_returns db first second :
  budget db (1, 1) = Some first → budget db (2, 2) = Some second →
  300000 ≤ second →
  update_albums (begin db) = (Returned tt, completed db first second).
Proof.
  unfold budget. intros H1 H2 L.
  destruct (albums db !! (2, 2)) as [r2|] eqn:E2; [cbn in H2 | discriminate].
  destruct (albums db !! (1, 1)) as [r1|] eqn:E1; [cbn in H1 | discriminate].
  run_body. rewrite E2. cbn. rewrite H2. cbn.
  destruct (Z.ltb_spec second 300000); [lia |].
  cbn. rewrite E1. cbn. rewrite H1. reflexivity.
Qed.

Lemma update_albums_cases db :
  ∃ r t, update_albums (begin db) = (r, t) ∧ BodyCase db r t.
Proof.
  destruct (albums db !! (2, 2)) as [r2|] eqn:E2.
  2: { eexists _, _. split; [by apply update_albums_no_second | by constructor]. }
  destruct (marketing_budget r2) as [second|] eqn:B2.
  2: { eexists _, _. split; [by eapply update_albums_null_second |].
       by eapply NullSecond. }
  assert (budget db (2, 2) = Some second) as H2
    by (unfold budget; rewrite E2; exact B2).
  destruct (Z.lt_ge_cases second 300000) as [L|L].
  { eexists _, _. split; [by eapply update_albums_too_low | by eapply TooLow]. }
  destruct (albums db !! (1, 1)) as [r1|] eqn:E1.
  2: { eexists _, _. split; [by eapply update_albums_no_first |].
       by eapply NoFirst. }
  destruct (marketing_budget r1) as [first|] eqn:B1.
  2: { eexists _, _. split; [by eapply update_albums_null_first |].
       by eapply NullFirst. }
  assert (budget db (1, 1) = Some first) as H1
    by (unfold budget; rewrite E1; exact B1).
  eexists _, _. split; [by eapply update_albums_returns | by eapply Completes].
Qed.

(** ** Commit of the staged update *)

Lemma budget_with_budget_eq k b db :
  is_Some (albums db !! k) → budget (with_budget k b db) k = Some b.
Proof.
  intros [r E]. unfold budget, with_budget. cbn.
  rewrite lookup_alter_eq, E. reflexivity.
Qed.

Lemma budget_with_budget_ne k k' b db :
  k ≠ k' → budget (with_budget k b db) k' = budget db k'.
Proof.
  intros N. unfold budget, with_budget. cbn.
  by rewrite lookup_alter_ne.
Qed.

Lemma insert_as_with_budget k r b db :
  albums db !! k = Some r →
  mkDatabase (singers db)
    (<[k := mkAlbum (album_title r) (Some b)]> (albums db))
  = with_budget k b db.
Proof.
  intros E. unfold with_budget. f_equal. apply map_eq. intros k'.
  destruct (decide (k = k')) as [<-|N].
  - by rewrite lookup_insert_eq, lookup_alter_eq, E.
  - by rewrite lookup_insert_ne, lookup_alter_ne.
Qed.

Lemma bind_returned {A B : Type} (a : A) (f : A → PyResult B) :
  Returned a ≫= f = f a.
Proof. reflexivity. Qed.

Lemma int64_spec z : is_int64 z = true ↔ int64 z.
Proof. apply bool_decide_eq_true. Qed.

Lemma fits_spec first second :
  fits first second = true
  ↔ int64 (first + 200000) ∧ int64 (second - 200000).
Proof. unfold fits. by rewrite andb_true_iff, !int64_spec. Qed.

Ltac in_range :=
  try apply fits_spec; unfold int64, INT64_MIN, INT64_MAX in *; lia.

(** The update of one budget: the store takes it when it is an INT64. *)
Lemma write_row_budget db s a b r :
  albums db !! (s, a) = Some r →
  write_row false Albums key_and_budget [PyInt s; PyInt a; PyInt b] db
  = if is_int64 b then Returned (with_budget (s, a) b db)
    else Raised BadRequest.
Proof.
  intros E. unfold write_row.
  assert (row_get_int key_and_budget [PyInt s; PyInt a; PyInt b] SingerId
          = Some s) as -> by reflexivity.
  assert (row_get_int key_and_budget [PyInt s; PyInt a; PyInt b] AlbumId
          = Some a) as -> by reflexivity.
  cbn. rewrite E. cbn. destruct (is_int64 b); [cbn | reflexivity].
  f_equal. by apply insert_as_with_budget.
Qed.

(** The commit of the staged update: both rows are written, or, when one
    of the two values is no INT64, none. *)
Lemma commit_completed db first second :
  is_Some (albums db !! (1, 1)) → is_Some (albums db !! (2, 2)) →
  apply_mutations (staged (completed db first second)) db
  = if fits first second then Returned (transferred db first second)
    else Raised BadRequest.
Proof.
  intros [r1 E1] [r2 E2].
  unfold completed, staged, apply_mutations, apply_mutation, new_values,
    write_rows, fits.
  rewrite (write_row_budget db 1 1 _ r1 E1).
  destruct (is_int64 (first + 200000)); [| reflexivity].
  rewrite bind_returned, (write_row_budget _ 2 2 _ r2).
  - by destruct (is_int64 (second - 200000)).
  - unfold with_budget. cbn. by rewrite lookup_alter_ne.
Qed.

(** ** The retry loop *)

Section Retry.
Context {A : Type} (func : Txn A).

Lemma run_raised conflicts final db e t :
  func (begin db) = (Raised e, t) →
  run_in_transaction func conflicts final db = (Raised e, db, trace t).
Proof. intros H. destruct conflicts; cbn; rewrite H; reflexivity. Qed.

Lemma run_retry next conflicts final db a t :
  func (begin db) = (Returned a, t) →
  run_in_transaction func (next :: conflicts) final db
  = after (trace t) (run_in_transaction func conflicts final next).
Proof. intros H. cbn. rewrite H. reflexivity. Qed.

Lemma after_nil {B : Type} (x : PyResult A * B * list Event) :
  after [] x = x.
Proof. by destruct x as [[r db] tr]. Qed.

Lemma after_after {B : Type} pre pre' (x : PyResult A * B * list Event) :
  after pre (after pre' x) = after (pre ++ pre') x.
Proof. destruct x as [[r db] tr]. cbn. by rewrite app_assoc. Qed.

Lemma last_read_cons next conflicts db :
  last_read (next :: conflicts) db = last_read conflicts next.
Proof.
  unfold last_read. destruct conflicts as [|c cs]; [reflexivity |].
  rewrite last_cons_cons. by destruct (last_is_Some (c :: cs)) as [_ [x ->]].
Qed.

(** A run is decided by one attempt, on the database given or on one that
    a conflicting transaction left; the earlier attempts only add to the
    trace. *)
Lemma run_decided conflicts final db :
  ∃ base pre, base ∈ db :: conflicts ∧
    run_in_transaction func conflicts final db
    = after pre (run_in_transaction func [] final base).
Proof.
  revert db. induction conflicts as [|next conflicts IH]; intros db.
  - exists db, []. split; [apply list_elem_of_here | by rewrite after_nil].
  - destruct (func (begin db)) as [[a|e] t] eqn:E.
    + destruct (IH next) as (base & pre & Hin & Eq).
      exists base, (trace t ++ pre).
      split; [by apply list_elem_of_further |].
      by rewrite (run_retry _ _ _ _ _ _ E), Eq, after_after.
    + exists db, []. split; [apply list_elem_of_here |].
      by rewrite after_nil, !(run_raised _ _ _ _ _ E).
Qed.

(** A run that returns was decided by its last attempt. *)
Lemma run_returned conflicts final db a db' out :
  run_in_transaction func conflicts final db = (Returned a, db', out) →
  ∃ pre out', out = pre ++ out' ∧
    run_in_transaction func [] final (last_read conflicts db)
    = (Returned a, db', out').
Proof.
  revert db out. induction conflicts as [|next conflicts IH]; intros db out.
  - intros H. by exists [], out.
  - destruct (func (begin db)) as [[a'|e] t] eqn:E.
    + rewrite (run_retry _ _ _ _ _ _ E).
      destruct (run_in_transaction func conflicts final next)
        as [[r d] o] eqn:R.
      cbn. intros [= -> -> <-].
      destruct (IH _ _ R) as (pre & out' & -> & Eq).
      exists (trace t ++ pre), out'. split; [by rewrite app_assoc |].
      by rewrite last_read_cons.
    + rewrite (run_raised _ _ _ _ _ E). discriminate.
Qed.

End Retry.

(** The run of the body without conflicts, case by case. *)

Lemma budget_is_Some db k b : budget db k = Some b → is_Some (albums db !! k).
Proof. unfold budget. destruct (albums db !! k); [eauto | discriminate]. Qed.

(** The attempt whose commit the store accepts: the update is applied when
    both values are INT64 values, else the commit fails and the database
    stays. *)
Lemma run_commit db first second :
  budget db (1, 1) = Some first → budget db (2, 2) = Some second →
  300000 ≤ second →
  run_in_transaction update_albums [] CommitOk db
  = if fits first second
    then (Returned tt, transferred db first second,
          trace (completed db first second))
    else (Raised BadRequest, db, trace (completed db first second)).
Proof.
  intros H1 H2 L. cbn.
  rewrite (update_albums_returns db first second H1 H2 L).
  rewrite commit_completed by eauto using budget_is_Some.
  by destruct (fits first second).
Qed.

Lemma run_commits db first second :
  budget db (1, 1) = Some first → budget db (2, 2) = Some second →
  300000 ≤ second → fits first second = true →
  run_in_transaction update_albums [] CommitOk db
  = (Returned tt, transferred db first second,
     trace (completed db first second)).
Proof. intros H1 H2 L F. by rewrite (run_commit db first second), F. Qed.

Lemma run_rejected db first second :
  budget db (1, 1) = Some first → budget db (2, 2) = Some second →
  300000 ≤ second → fits first second = false →
  run_in_transaction update_albums [] CommitOk db
  = (Raised BadRequest, db, trace (completed db first second)).
Proof. intros H1 H2 L F. by rewrite (run_commit db first second), F. Qed.

Lemma run_gives_up db first second :
  budget db (1, 1) = Some first → budget db (2, 2) = Some second →
  300000 ≤ second →
  run_in_transaction update_albums [] CommitConflict db
  = (Raised Aborted, db, trace (completed db first second)).
Proof.
  intros H1 H2 L. cbn.
  by rewrite (update_albums_returns db first second H1 H2 L).
Qed.

Lemma budget_transferred_first db first second :
  is_Some (albums db !! (1, 1)) →
  budget (transferred db first second) (1, 1) = Some (first + 200000).
Proof.
  intros H. unfold transferred.
  rewrite budget_with_budget_ne by done. by apply budget_with_budget_eq.
Qed.

Lemma budget_transferred_second db first second :
  is_Some (albums db !! (2, 2)) →
  budget (transferred db first second) (2, 2) = Some (second - 200000).
Proof.
  intros [r E]. unfold transferred. apply budget_with_budget_eq.
  unfold with_budget. cbn. rewrite lookup_alter_ne by done. eauto.
Qed.

(** * The claims *)

(** C1. When both rows hold a budget, the budget of the debited row (2,2)
    is at least 300000, and the budget of the credited row (1,1) plus 200000
    is still a value of the INT64 column, the transaction commits: the run
    returns, the budget of row (1,1) is its old budget plus 200000 and the
    budget of row (2,2) is its old budget minus 200000.  On the sample data,
    budgets 100000 and 500000, the run returns with both budgets at
    300000. *)
Theorem transfer_commits :
  (∀ db first second,
     budget db (1, 1) = Some first → budget db (2, 2) = Some second →
     300000 ≤ second →
     int64 first → int64 second → first + 200000 ≤ INT64_MAX →
     ∃ db' out,
       run_in_transaction update_albums [] CommitOk db
       = (Returned tt, db', out) ∧
       budget db' (1, 1) = Some (first + 200000) ∧
       budget db' (2, 2) = Some (second - 200000)) ∧
  (∃ out,
     run_in_transaction update_albums [] CommitOk
       (sample_database (Some 100000) (Some 500000))
     = (Returned tt, sample_database (Some 300000) (Some 300000), out)).
Proof.
  split.
  - intros db first second H1 H2 L I1 I2 M.
    eexists _, _. split; [apply run_commits; try done |].
    + apply fits_spec. unfold int64, INT64_MIN, INT64_MAX in *. lia.
    + split.
      * apply budget_transferred_first. eauto using budget_is_Some.
      * apply budget_transferred_second. eauto using budget_is_Some.
  - eexists. vm_compute. reflexivity.
Qed.

Lemma transfer_commits_witness :
  ∃ db' out,
    run_in_transaction update_albums [] CommitOk
      (sample_database (Some 7) (Some 300000))
    = (Returned tt, db', out) ∧
    budget db' (1, 1) = Some (7 + 200000) ∧
    budget db' (2, 2) = Some (300000 - 200000).
Proof.
  apply (proj1 transfer_commits (sample_database (Some 7) (Some 300000))).
  - reflexivity.
  - reflexivity.
  - lia.
  - unfold int64, INT64_MIN, INT64_MAX. lia.
  - unfold int64, INT64_MIN, INT64_MAX. lia.
  - unfold INT64_MAX. lia.
Defined.

(** Without the bound on the credited budget the transaction need not
    commit.  Row (1,1) holds the largest INT64, row (2,2) holds 500000, at
    least the threshold: the body prints the new budgets and calls
    [update], the commit is refused because 9223372036854975807 is no
    INT64, the run raises and the database is as it was. *)
Lemma transfer_commits_counterexample :
  budget (sample_database (Some 9223372036854775807) (Some 500000)) (1, 1)
  = Some 9223372036854775807 ∧
  budget (sample_database (Some 9223372036854775807) (Some 500000)) (2, 2)
  = Some 500000 ∧
  300000 ≤ 500000 ∧
  run_in_transaction update_albums [] CommitOk
    (sample_database (Some 9223372036854775807) (Some 500000))
  = (Raised BadRequest,
     sample_database (Some 9223372036854775807) (Some 500000),
     [read_second; read_first;
      EvPrint "Setting first album's budget to 9223372036854975807 and the second album's budget to 300000.";
      EvUpdate Albums [SingerId; AlbumId; MarketingBudget]
        [[PyInt 1; PyInt 1; PyInt 9223372036854975807];
         [PyInt 2; PyInt 2; PyInt 300000]]]).
Proof.
  split; [reflexivity |]. split; [reflexivity |]. split; [lia |].
  vm_compute. reflexivity.
Qed.

(** Rewrites a run without conflicts, in hypothesis [H], by the case [C] of
    its body [E]. *)
Ltac run_case H E C final :=
  destruct C;
  [ rewrite (run_raised _ _ _ _ _ _ E) in H
  | rewrite (run_raised _ _ _ _ _ _ E) in H
  | rewrite (run_raised _ _ _ _ _ _ E) in H
  | rewrite (run_raised _ _ _ _ _ _ E) in H
  | rewrite (run_raised _ _ _ _ _ _ E) in H
  | destruct final;
    [ erewrite run_commit in H by eassumption;
      destruct (fits _ _) eqn:?
    | erewrite run_gives_up in H by eassumption ] ].

(** C2. The run raises the insufficient-funds [ValueError] exactly when the
    debited row (2,2) holds a budget strictly below 300000; the database is
    then as it was, and the only call made on the transaction is the read of
    row (2,2).  With budgets 100000 and 250000 the run raises it and both
    budgets stay. *)
Theorem insufficient_funds_aborts :
  (∀ db final second,
     budget db (2, 2) = Some second → second < 300000 →
     run_in_transaction update_albums [] final db
     = (Raised insufficient_funds, db, [read_second])) ∧
  (∀ db final db' out,
     run_in_transaction update_albums [] final db
     = (Raised insufficient_funds, db', out) →
     ∃ second, budget db (2, 2) = Some second ∧ second < 300000) ∧
  (∀ final,
     run_in_transaction update_albums [] final
       (sample_database (Some 100000) (Some 250000))
     = (Raised insufficient_funds,
        sample_database (Some 100000) (Some 250000), [read_second])).
Proof.
  assert (∀ db final second,
     budget db (2, 2) = Some second → second < 300000 →
     run_in_transaction update_albums [] final db
     = (Raised insufficient_funds, db, [read_second])) as Low.
  { intros db final second H L.
    by rewrite (run_raised _ _ _ _ _ _ (update_albums_too_low db second H L)). }
  split; [exact Low | split].
  - intros db final db' out H.
    destruct (update_albums_cases db) as (r & t & E & C).
    run_case H E C final; try discriminate. eauto.
  - intros final. by apply (Low _ _ 250000).
Qed.

Lemma insufficient_funds_aborts_witness :
  run_in_transaction update_albums [] CommitOk
    (sample_database None (Some 299999))
  = (Raised insufficient_funds, sample_database None (Some 299999),
     [read_second]).
Proof.
  apply (proj1 insufficient_funds_aborts _ _ 299999).
  - reflexivity.
  - lia.
Defined.

(** C3. Conservation: when the run returns, after any number of retries, the
    two budgets in the resulting database add up to what the two budgets
    added up to in the database that the committing attempt read. *)
Theorem transfer_conserves conflicts db db' out :
  run_in_transaction update_albums conflicts CommitOk db
  = (Returned tt, db', out) →
  ∃ first second first' second',
    budget (last_read conflicts db) (1, 1) = Some first ∧
    budget (last_read conflicts db) (2, 2) = Some second ∧
    budget db' (1, 1) = Some first' ∧
    budget db' (2, 2) = Some second' ∧
    first' + second' = first + second.
Proof.
  intros R. apply run_returned in R as (pre & out' & -> & H).
  destruct (update_albums_cases (last_read conflicts db)) as (r & t & E & C).
  run_case H E C CommitOk; try discriminate.
  injection H as <- _.
  exists first, second, (first + 200000), (second - 200000).
  repeat split; try assumption.
  - apply budget_transferred_first. eauto using budget_is_Some.
  - apply budget_transferred_second. eauto using budget_is_Some.
  - lia.
Qed.

Lemma transfer_conserves_witness :
  ∃ first second first' second',
    budget (sample_database (Some 1) (Some 400000)) (1, 1) = Some first ∧
    budget (sample_database (Some 1) (Some 400000)) (2, 2) = Some second ∧
    budget (sample_database (Some 200001) (Some 200000)) (1, 1)
    = Some first' ∧
    budget (sample_database (Some 200001) (Some 200000)) (2, 2)
    = Some second' ∧
    first' + second' = first + second.
Proof.
  eapply (transfer_conserves
            [sample_database (Some 1) (Some 400000)]
            (sample_database (Some 100000) (Some 500000))).
  vm_compute. reflexivity.
Defined.

Lemma run_raised_unchanged {A : Type} (func : Txn A) final db e db' out :
  run_in_transaction func [] final db = (Raised e, db', out) → db' = db.
Proof.
  cbn. destruct (func (begin db)) as [[a|e'] t]; [| congruence].
  destruct final; [| congruence].
  destruct (apply_mutations (staged t) db); [discriminate | congruence].
Qed.

(** C4. Every run that does not commit leaves no write: without retries the
    database is the one the run started from; with retries it is the one
    given or one that a conflicting transaction left, never one with the
    staged update.  When the body raises, on the threshold check or on a
    missing row, it has staged no mutation and has not called [update]. *)
Theorem aborts_write_nothing :
  (∀ final db e db' out,
     run_in_transaction update_albums [] final db = (Raised e, db', out) →
     db' = db) ∧
  (∀ conflicts final db e db' out,
     run_in_transaction update_albums conflicts final db
     = (Raised e, db', out) →
     db' ∈ db :: conflicts) ∧
  (∀ db e t,
     update_albums (begin db) = (Raised e, t) →
     staged t = [] ∧ Forall (λ ev, is_update ev = false) (trace t)).
Proof.
  split; [| split].
  - intros final db e db' out. apply run_raised_unchanged.
  - intros conflicts final db e db' out H.
    destruct (run_decided update_albums conflicts final db)
      as (base & pre & Hin & Eq).
    rewrite Eq in H.
    destruct (run_in_transaction update_albums [] final base)
      as [[r d] o] eqn:R.
    cbn in H. injection H as -> -> _.
    by rewrite (run_raised_unchanged _ _ _ _ _ _ R).
  - intros db e t H.
    destruct (update_albums_cases db) as (r & t' & E & C).
    rewrite E in H. destruct C; try discriminate; injection H as _ <-;
      (split; [reflexivity | repeat constructor]).
Qed.

Lemma aborts_write_nothing_witness :
  sample_database (Some 100000) (Some 250000)
  = sample_database (Some 100000) (Some 250000).
Proof.
  apply (proj1 aborts_write_nothing CommitOk
           (sample_database (Some 100000) (Some 250000))
           insufficient_funds _ [read_second]).
  reflexivity.
Defined.

(** [read_write_transaction] on an existing database. *)
Lemma read_write_transaction_on instance_id database_id conflicts final w db :
  w !! (instance_id, database_id) = Some db →
  read_write_transaction instance_id database_id conflicts final w
  = let '(r, db', out) :=
      run_in_transaction update_albums conflicts final db in
    match r with
    | Returned _ =>
        (Returned tt, <[(instance_id, database_id) := db']> w,
         out ++ [EvPrint "Transaction complete."])
    | Raised e => (Raised e, <[(instance_id, database_id) := db']> w, out)
    end.
Proof.
  intros H. unfold read_write_transaction, on_database. rewrite H.
  destruct (run_in_transaction update_albums conflicts final db)
    as [[[[]|e] db'] out]; reflexivity.
Qed.

(** C5. When the database has no album under key (2,2), the run fails with
    the [IndexError] that [list(...)[0]] raises on the empty result;
    [read_write_transaction] lets it through to its caller, whatever the
    store would answer to a commit, and the databases are as they were: the
    only call made is the read of row (2,2). *)
Theorem missing_row_fails instance_id database_id conflicts final w db :
  w !! (instance_id, database_id) = Some db →
  albums db !! (2, 2) = None →
  read_write_transaction instance_id database_id conflicts final w
  = (Raised IndexError, w, [read_second]).
Proof.
  intros H N.
  rewrite (read_write_transaction_on _ _ _ _ _ _ H).
  rewrite (run_raised _ _ _ _ _ _ (update_albums_no_second db N)).
  by rewrite insert_id.
Qed.

Lemma missing_row_fails_witness :
  read_write_transaction INSTANCE_ID DATABASE_ID [] CommitOk
    (sample_world empty_database)
  = (Raised IndexError, sample_world empty_database, [read_second]).
Proof.
  apply (missing_row_fails _ _ _ _ _ empty_database).
  - reflexivity.
  - reflexivity.
Defined.

(** C6. When the two budgets that the committing attempt reads are
    non-negative and the run returns, the two budgets in the resulting
    database are non-negative; the debited one is at least
    300000 - 200000. *)
Theorem budgets_stay_nonnegative conflicts db first second db' out :
  budget (last_read conflicts db) (1, 1) = Some first →
  budget (last_read conflicts db) (2, 2) = Some second →
  0 ≤ first → 0 ≤ second →
  run_in_transaction update_albums conflicts CommitOk db
  = (Returned tt, db', out) →
  ∃ first' second',
    budget db' (1, 1) = Some first' ∧ budget db' (2, 2) = Some second' ∧
    0 ≤ first' ∧ 300000 - 200000 ≤ second' ∧ 0 ≤ second'.
Proof.
  intros H1 H2 P1 P2 R. apply run_returned in R as (pre & out' & -> & H).
  destruct (update_albums_cases (last_read conflicts db)) as (r & t & E & C).
  run_case H E C CommitOk; try discriminate.
  injection H as <- _.
  assert (first0 = first) as -> by congruence.
  assert (second0 = second) as -> by congruence.
  exists (first + 200000), (second - 200000).
  split; [apply budget_transferred_first; eauto using budget_is_Some |].
  split; [apply budget_transferred_second; eauto using budget_is_Some |].
  lia.
Qed.

Lemma budgets_stay_nonnegative_witness :
  ∃ first' second',
    budget (sample_database (Some 200000) (Some 100000)) (1, 1)
    = Some first' ∧
    budget (sample_database (Some 200000) (Some 100000)) (2, 2)
    = Some second' ∧
    0 ≤ first' ∧ 300000 - 200000 ≤ second' ∧ 0 ≤ second'.
Proof.
  eapply (budgets_stay_nonnegative []
            (sample_database (Some 0) (Some 300000)) 0 300000).
  - reflexivity.
  - reflexivity.
  - lia.
  - lia.
  - vm_compute. reflexivity.
Defined.

(** C7. In every run of the body the first call is the read of row (2,2),
    and what that row holds decides what follows.  Below 300000 the body
    raises the insufficient-funds error and the read of row (2,2) is the
    only call it has made.  From 300000 on the second call is the read of
    row (1,1).  Without a budget in row (2,2) there is no second call.  So
    row (1,1) is read only when row (2,2) holds at least 300000, and never
    on the insufficient-funds path. *)
Theorem reads_in_order db r t :
  update_albums (begin db) = (r, t) →
  (∃ rest, trace t = read_second :: rest) ∧
  (∀ second, budget db (2, 2) = Some second → second < 300000 →
     r = Raised insufficient_funds ∧ trace t = [read_second]) ∧
  (∀ second, budget db (2, 2) = Some second → 300000 ≤ second →
     r ≠ Raised insufficient_funds ∧
     ∃ rest, trace t = read_second :: read_first :: rest) ∧
  (budget db (2, 2) = None → trace t = [read_second]) ∧
  (read_first ∈ trace t →
     ∃ second, budget db (2, 2) = Some second ∧ 300000 ≤ second) ∧
  (r = Raised insufficient_funds →
     trace t = [read_second] ∧
     ∃ second, budget db (2, 2) = Some second ∧ second < 300000).
Proof.
  intros H. destruct (update_albums_cases db) as (r' & t' & E & C).
  rewrite E in H. injection H as <- <-.
  assert (read_first ∉ [read_second]) as Single
    by (intros In%list_elem_of_singleton; discriminate).
  destruct C as [N2|r2 E2 N2|second H2 L|second H2 L N1|second r1 H2 L E1 N1
                |first second H1 H2 L].
  1: assert (budget db (2, 2) = None) as B by (unfold budget; by rewrite N2).
  2: assert (budget db (2, 2) = None) as B
       by (unfold budget; rewrite E2; exact N2).
  all: cbn [trace stopped_after_second stopped_after_first completed].
  all: split; [by eexists |].
  all: split; [intros s Bs Ls;
               first [ congruence
                     | assert (s = second) as -> by congruence;
                       first [ lia | by split ] ] |].
  all: split; [intros s Bs Ls;
               first [ congruence
                     | assert (s = second) as -> by congruence;
                       first [ lia | split; [discriminate | by eexists] ] ] |].
  all: split; [intros Bn; first [ reflexivity | congruence ] |].
  all: split; [intros In; first [ by destruct Single | eauto ] |].
  all: intros R; first [ discriminate | split; [reflexivity | eauto] ].
Qed.

Lemma reads_in_order_witness :
  (∃ rest,
     trace (completed (sample_database (Some 100000) (Some 500000))
              100000 500000)
     = read_second :: rest) ∧
  (∀ second,
     budget (sample_database (Some 100000) (Some 500000)) (2, 2)
     = Some second →
     second < 300000 →
     Returned tt = Raised insufficient_funds ∧
     trace (completed (sample_database (Some 100000) (Some 500000))
              100000 500000)
     = [read_second]) ∧
  (∀ second,
     budget (sample_database (Some 100000) (Some 500000)) (2, 2)
     = Some second →
     300000 ≤ second →
     Returned tt ≠ Raised insufficient_funds ∧
     ∃ rest,
       trace (completed (sample_database (Some 100000) (Some 500000))
                100000 500000)
       = read_second :: read_first :: rest) ∧
  (budget (sample_database (Some 100000) (Some 500000)) (2, 2) = None →
   trace (completed (sample_database (Some 100000) (Some 500000))
            100000 500000)
   = [read_second]) ∧
  (read_first
   ∈ trace (completed (sample_database (Some 100000) (Some 500000))
              100000 500000) →
   ∃ second,
     budget (sample_database (Some 100000) (Some 500000)) (2, 2)
     = Some second ∧
     300000 ≤ second) ∧
  (Returned tt = Raised insufficient_funds →
   trace (completed (sample_database (Some 100000) (Some 500000))
            100000 500000)
   = [read_second] ∧
   ∃ second,
     budget (sample_database (Some 100000) (Some 500000)) (2, 2)
     = Some second ∧
     second < 300000).
Proof.
  apply (reads_in_order (sample_database (Some 100000) (Some 500000))
           (Returned tt)).
  reflexivity.
Defined.

Lemma update_albums_outcome db :
  observed (update_albums (begin db))
  = outcome_of_reads (read_budget db (2, 2)) (read_budget db (1, 1)).
Proof.
  destruct (update_albums_cases db) as (r & t & E & C). rewrite E.
  destruct C as [N2|r2 E2 N2|second H2 L|second H2 L N1|second r1 H2 L E1 N1
                |first second H1 H2 L];
    unfold observed, outcome_of_reads, read_budget, budget in *; cbn.
  - by rewrite N2.
  - by rewrite E2; cbn; rewrite N2.
  - destruct (albums db !! (2, 2)) as [r2|]; [cbn in * | by cbn in *].
    rewrite H2. by destruct (Z.ltb_spec second 300000); [| lia].
  - destruct (albums db !! (2, 2)) as [r2|]; [cbn in * | by cbn in *].
    rewrite H2, N1. by destruct (Z.ltb_spec second 300000); [lia |].
  - destruct (albums db !! (2, 2)) as [r2|]; [cbn in * | by cbn in *].
    rewrite H2, E1. cbn. rewrite N1.
    by destruct (Z.ltb_spec second 300000); [lia |].
  - destruct (albums db !! (2, 2)) as [r2|]; [cbn in * | by cbn in *].
    destruct (albums db !! (1, 1)) as [r1|]; [cbn in * | by cbn in *].
    rewrite H1, H2. by destruct (Z.ltb_spec second 300000); [lia |].
Qed.

(** C8. Two runs of the body whose reads give the same for row (2,2) and
    the same for row (1,1) end the same way: the same result or exception,
    the same staged update with the same two values, the same calls and the
    same printed line, whatever else the two databases hold. *)
Theorem outcome_determined_by_reads db1 db2 :
  read_budget db1 (2, 2) = read_budget db2 (2, 2) →
  read_budget db1 (1, 1) = read_budget db2 (1, 1) →
  observed (update_albums (begin db1)) = observed (update_albums (begin db2)).
Proof. intros H2 H1. by rewrite !update_albums_outcome, H2, H1. Qed.

Lemma outcome_determined_by_reads_witness :
  observed (update_albums (begin (sample_database (Some 1) (Some 300000))))
  = observed (update_albums (begin
      (mkDatabase ∅ {[ (1, 1) := mkAlbum None (Some 1);
                       (2, 2) := mkAlbum (Some "Other") (Some 300000) ]}))).
Proof.
  apply outcome_determined_by_reads.
  - reflexivity.
  - reflexivity.
Defined.

(** ** The code against the specification's operation *)

Lemma balances_lookup db k : balances db !! k = budget db k.
Proof. unfold balances, budget. apply lookup_omap. Qed.

Lemma balances_with_budget k b db :
  is_Some (albums db !! k) →
  balances (with_budget k b db) = <[k := b]> (balances db).
Proof.
  intros [r E]. apply map_eq. intros k'.
  rewrite balances_lookup. destruct (decide (k = k')) as [<-|N].
  - rewrite lookup_insert_eq. apply budget_with_budget_eq. eauto.
  - rewrite lookup_insert_ne by done.
    by rewrite budget_with_budget_ne, balances_lookup.
Qed.

Lemma balances_transferred db first second :
  is_Some (albums db !! (1, 1)) → is_Some (albums db !! (2, 2)) →
  balances (transferred db first second)
  = <[(2, 2) := second - 200000]> (<[(1, 1) := first + 200000]> (balances db)).
Proof.
  intros S1 S2. unfold transferred.
  rewrite balances_with_budget.
  - by rewrite balances_with_budget.
  - unfold with_budget. cbn. by rewrite lookup_alter_ne.
Qed.

Lemma populated_budget db k r :
  unpopulated db k = false →
  albums db !! k = Some r → marketing_budget r = None → False.
Proof. unfold unpopulated. intros P E N. by rewrite E, N in P. Qed.

Lemma budget_None db k : albums db !! k = None → budget db k = None.
Proof. unfold budget. by intros ->. Qed.

Lemma last_read_in conflicts db : last_read conflicts db ∈ db :: conflicts.
Proof.
  revert db. induction conflicts as [|next conflicts IH]; intros db.
  - apply list_elem_of_here.
  - rewrite last_read_cons. apply list_elem_of_further, IH.
Qed.

(** One attempt on a populated database, against the specification's
    operation for the fixed request. *)
Lemma attempt_as_specified final base :
  populated base →
  ∃ db' out,
    run_in_transaction update_albums [] final base
    = (reported final (Spec.execute (balances base) fixed_request).1,
       db', out) ∧
    match reported final (Spec.execute (balances base) fixed_request).1 with
    | Returned _ =>
        balances db' = (Spec.execute (balances base) fixed_request).2
    | Raised _ => db' = base
    end.
Proof.
  intros P.
  destruct (update_albums_cases base) as (r & t & E & C).
  destruct C as [N2|r2 E2 N2|second H2 L|second H2 L N1|second r1 H2 L E1 N1
                |first second H1 H2 L];
    [ rewrite (run_raised _ _ _ _ _ _ E)
    | destruct (populated_budget base (2, 2) r2); by destruct P
    | rewrite (run_raised _ _ _ _ _ _ E)
    | rewrite (run_raised _ _ _ _ _ _ E)
    | destruct (populated_budget base (1, 1) r1); by destruct P
    | destruct final;
      [ rewrite (run_commit base first second H1 H2 L)
      | rewrite (run_gives_up base first second H1 H2 L) ] ];
    unfold Spec.execute, fixed_request; cbn; rewrite !balances_lookup.
  - rewrite (budget_None _ _ N2). by eexists _, _.
  - rewrite H2. destruct (Z.ltb_spec second 300000); [| lia].
    by eexists _, _.
  - rewrite H2, (budget_None _ _ N1).
    destruct (Z.ltb_spec second 300000); [lia |]. by eexists _, _.
  - rewrite H1, H2. destruct (Z.ltb_spec second 300000); [lia |].
    cbn. fold (fits first second). destruct (fits first second).
    + eexists _, _. split; [reflexivity |].
      apply balances_transferred; eauto using budget_is_Some.
    + by eexists _, _.
  - rewrite H1, H2. destruct (Z.ltb_spec second 300000); [lia |].
    by eexists _, _.
Qed.

(** C9. [read_write_transaction] takes an instance id and a database id and
    no transfer request.  Every call, whatever the conflicts and the store's
    answer to the commit, is decided by one attempt, on the database given
    or on one that a conflicting transaction left, and on populated
    databases that attempt does what the specification's operation does for
    the one request with source row (1,1), destination row (2,2), amount
    200000 and threshold 300000: the call ends as that outcome is reported,
    and when it returns, the attempt was the last one and the balances are
    those the operation leaves; when it raises, the database is the one the
    attempt read. *)
Theorem fixed_transfer_request
    instance_id database_id conflicts final w db :
  w !! (instance_id, database_id) = Some db →
  Forall populated (db :: conflicts) →
  ∃ base r db' out,
    base ∈ db :: conflicts ∧
    read_write_transaction instance_id database_id conflicts final w
    = (r, <[(instance_id, database_id) := db']> w, out) ∧
    r = reported final (Spec.execute (balances base) fixed_request).1 ∧
    match r with
    | Returned _ =>
        base = last_read conflicts db ∧
        balances db' = (Spec.execute (balances base) fixed_request).2
    | Raised _ => db' = base
    end.
Proof.
  intros H P. rewrite (read_write_transaction_on _ _ _ _ _ _ H).
  rewrite Forall_forall in P.
  destruct (run_in_transaction update_albums conflicts final db)
    as [[[[]|e] d] o] eqn:R.
  - apply run_returned in R as (pre & out' & -> & Last).
    pose proof (last_read_in conflicts db) as Hin.
    destruct (attempt_as_specified final _ (P _ Hin)) as (db' & out & Eq & M).
    rewrite Last in Eq. injection Eq as Eq <- _. rewrite <- Eq in M.
    by eexists (last_read conflicts db), _, _, _.
  - destruct (run_decided update_albums conflicts final db)
      as (base & pre & Hin & Eq).
    rewrite R in Eq.
    destruct (attempt_as_specified final _ (P _ Hin)) as (db' & out & Eq' & M).
    rewrite Eq' in Eq. cbn in Eq. injection Eq as Eq <- _. rewrite <- Eq in M.
    by eexists base, _, _, _.
Qed.

Lemma fixed_transfer_request_witness :
  ∃ base r db' out,
    base ∈ [sample_database (Some 100000) (Some 500000);
            sample_database (Some 1) (Some 400000)] ∧
    read_write_transaction INSTANCE_ID DATABASE_ID
      [sample_database (Some 1) (Some 400000)] CommitOk
      (sample_world (sample_database (Some 100000) (Some 500000)))
    = (r, <[(INSTANCE_ID, DATABASE_ID) := db']>
            (sample_world (sample_database (Some 100000) (Some 500000))),
       out) ∧
    r = reported CommitOk (Spec.execute (balances base) fixed_request).1 ∧
    match r with
    | Returned _ =>
        base = last_read [sample_database (Some 1) (Some 400000)]
                 (sample_database (Some 100000) (Some 500000)) ∧
        balances db' = (Spec.execute (balances base) fixed_request).2
    | Raised _ => db' = base
    end.
Proof.
  apply fixed_transfer_request.
  - reflexivity.
  - repeat constructor.
Defined.

(** ** Frame *)

Lemma albums_transferred_other db first second k :
  k ≠ (1, 1) → k ≠ (2, 2) →
  albums (transferred db first second) !! k = albums db !! k.
Proof.
  intros N1 N2. unfold transferred, with_budget. cbn.
  by rewrite !lookup_alter_ne.
Qed.

Lemma albums_transferred_title db first second k :
  album_title <$> albums (transferred db first second) !! k
  = album_title <$> albums db !! k.
Proof.
  unfold transferred, with_budget. cbn.
  destruct (decide ((2, 2) = k)) as [<-|N2].
  - rewrite lookup_alter_eq, lookup_alter_ne by done.
    by destruct (albums db !! (2, 2)).
  - rewrite lookup_alter_ne by done.
    destruct (decide ((1, 1) = k)) as [<-|N1].
    + rewrite lookup_alter_eq. by destruct (albums db !! (1, 1)).
    + by rewrite lookup_alter_ne.
Qed.

(** C10. When [read_write_transaction] returns, only the database it names
    has changed, and in it, against the database that the committing attempt
    read: the [Singers] table is the same, every album other than (1,1) and
    (2,2) is the same, no album has appeared or gone, and every album has
    the title it had. *)
Theorem transfer_frame instance_id database_id conflicts w db w' out :
  w !! (instance_id, database_id) = Some db →
  read_write_transaction instance_id database_id conflicts CommitOk w
  = (Returned tt, w', out) →
  ∃ db',
    w' = <[(instance_id, database_id) := db']> w ∧
    (∀ other, other ≠ (instance_id, database_id) → w' !! other = w !! other) ∧
    singers db' = singers (last_read conflicts db) ∧
    (∀ k, k ≠ (1, 1) → k ≠ (2, 2) →
       albums db' !! k = albums (last_read conflicts db) !! k) ∧
    dom (albums db') = dom (albums (last_read conflicts db)) ∧
    (∀ k, album_title <$> albums db' !! k
          = album_title <$> albums (last_read conflicts db) !! k).
Proof.
  intros H R. rewrite (read_write_transaction_on _ _ _ _ _ _ H) in R.
  destruct (run_in_transaction update_albums conflicts CommitOk db)
    as [[[[]|e] db'] out'] eqn:Run; [| discriminate].
  injection R as <- <-. exists db'. split; [reflexivity |].
  split; [by intros other N; rewrite lookup_insert_ne |].
  apply run_returned in Run as (pre & out'' & -> & Last).
  destruct (update_albums_cases (last_read conflicts db)) as (r & t & E & C).
  run_case Last E C CommitOk; try discriminate.
  injection Last as <- _.
  split; [reflexivity |].
  split; [by intros; apply albums_transferred_other |].
  split; [| by intros; apply albums_transferred_title].
  unfold transferred, with_budget. cbn. by rewrite !dom_alter_L.
Qed.

Lemma transfer_frame_witness :
  ∃ db',
    sample_world (sample_database (Some 300000) (Some 300000))
    = <[(INSTANCE_ID, DATABASE_ID) := db']>
        (sample_world (sample_database (Some 100000) (Some 500000))) ∧
    (∀ other, other ≠ (INSTANCE_ID, DATABASE_ID) →
       sample_world (sample_database (Some 300000) (Some 300000)) !! other
       = sample_world (sample_database (Some 100000) (Some 500000)) !! other) ∧
    singers db' = singers (sample_database (Some 100000) (Some 500000)) ∧
    (∀ k, k ≠ (1, 1) → k ≠ (2, 2) →
       albums db' !! k
       = albums (sample_database (Some 100000) (Some 500000)) !! k) ∧
    dom (albums db')
    = dom (albums (sample_database (Some 100000) (Some 500000))) ∧
    (∀ k, album_title <$> albums db' !! k
          = album_title
              <$> albums (sample_database (Some 100000) (Some 500000)) !! k).
Proof.
  eapply (transfer_frame INSTANCE_ID DATABASE_ID []
            (sample_world (sample_database (Some 100000) (Some 500000)))
            (sample_database (Some 100000) (Some 500000))).
  - reflexivity.
  - vm_compute. reflexivity.
Defined.

(** * Further properties of the sample functions *)

(** ** [update_data] *)

Lemma on_database_lookup {A : Type} instance_id database_id
    (f : Database → PyResult A * Database * list Event) w db :
  w !! (instance_id, database_id) = Some db →
  on_database instance_id database_id f w
  = let '(r, db', out) := f db in
    (r, <[(instance_id, database_id) := db']> w, out).
Proof. intros H. unfold on_database. by rewrite H. Qed.

Lemma on_database_missing {A : Type} instance_id database_id
    (f : Database → PyResult A * Database * list Event) w :
  w !! (instance_id, database_id) = None →
  on_database instance_id database_id f w = (Raised NotFound, w, []).
Proof. intros H. unfold on_database. by rewrite H. Qed.

Lemma write_row_budget_missing db s a b :
  albums db !! (s, a) = None →
  write_row false Albums key_and_budget [PyInt s; PyInt a; PyInt b] db
  = Raised NotFound.
Proof.
  intros E. unfold write_row.
  assert (row_get_int key_and_budget [PyInt s; PyInt a; PyInt b] SingerId
          = Some s) as -> by reflexivity.
  assert (row_get_int key_and_budget [PyInt s; PyInt a; PyInt b] AlbumId
          = Some a) as -> by reflexivity.
  cbn. by rewrite E.
Qed.

Lemma with_budget_lookup_ne k k' b db :
  k ≠ k' → albums (with_budget k b db) !! k' = albums db !! k'.
Proof. intros N. unfold with_budget. cbn. by rewrite lookup_alter_ne. Qed.

Lemma with_budget_is_Some k k' b db :
  is_Some (albums db !! k') → is_Some (albums (with_budget k b db) !! k').
Proof.
  intros [r E]. unfold with_budget. cbn.
  destruct (decide (k = k')) as [<-|N].
  - rewrite lookup_alter_eq, E. eauto.
  - rewrite lookup_alter_ne, E by done. eauto.
Qed.

(** The update of the two budgets, as [update_data] and the transaction
    stage it, with INT64 values. *)
Lemma set_two_budgets db x y :
  int64 x → int64 y →
  apply_mutations
    [Update Albums key_and_budget
       [[PyInt 1; PyInt 1; PyInt x]; [PyInt 2; PyInt 2; PyInt y]]] db
  = match albums db !! (1, 1), albums db !! (2, 2) with
    | Some _, Some _ =>
        Returned (with_budget (2, 2) y (with_budget (1, 1) x db))
    | _, _ => Raised NotFound
    end.
Proof.
  intros X%int64_spec Y%int64_spec.
  unfold apply_mutations, apply_mutation, write_rows.
  destruct (albums db !! (1, 1)) as [r1|] eqn:E1.
  - rewrite (write_row_budget db 1 1 _ r1 E1), X, bind_returned.
    destruct (albums db !! (2, 2)) as [r2|] eqn:E2.
    + rewrite (write_row_budget _ 2 2 _ r2), Y; [reflexivity |].
      by rewrite with_budget_lookup_ne.
    + rewrite write_row_budget_missing; [reflexivity |].
      by rewrite with_budget_lookup_ne.
  - rewrite write_row_budget_missing by done.
    by destruct (albums db !! (2, 2)).
Qed.

Lemma update_data_on instance_id database_id w db :
  w !! (instance_id, database_id) = Some db →
  update_data instance_id database_id w
  = match albums db !! (1, 1), albums db !! (2, 2) with
    | Some _, Some _ =>
        (Returned tt,
         <[(instance_id, database_id) := with_sample_budgets db]> w,
         [EvPrint "Updated data."])
    | _, _ => (Raised NotFound, w, [])
    end.
Proof.
  intros H. unfold update_data. rewrite (on_database_lookup _ _ _ _ _ H).
  unfold batch.
  change [SingerId; AlbumId; MarketingBudget] with key_and_budget.
  rewrite set_two_budgets by (unfold int64, INT64_MIN, INT64_MAX; lia).
  destruct (albums db !! (1, 1)), (albums db !! (2, 2));
    first [ reflexivity | by rewrite insert_id ].
Qed.

(** X1. [update_data] needs both albums: when album (1,1) or album (2,2)
    is missing it raises [NotFound], prints nothing and changes nothing,
    also when only the second one is missing: the budget of the first is
    then not written either. *)
Theorem update_data_needs_both_rows instance_id database_id w db :
  w !! (instance_id, database_id) = Some db →
  albums db !! (1, 1) = None ∨ albums db !! (2, 2) = None →
  update_data instance_id database_id w = (Raised NotFound, w, []).
Proof.
  intros H M. rewrite (update_data_on _ _ _ _ H).
  destruct M as [-> | ->]; [reflexivity |].
  by destruct (albums db !! (1, 1)).
Qed.

Lemma update_data_needs_both_rows_witness :
  update_data INSTANCE_ID DATABASE_ID
    (sample_world
       (mkDatabase ∅ {[ (1, 1) := mkAlbum (Some "Total Junk") (Some 7) ]}))
  = (Raised NotFound,
     sample_world
       (mkDatabase ∅ {[ (1, 1) := mkAlbum (Some "Total Junk") (Some 7) ]}),
     []).
Proof.
  eapply update_data_needs_both_rows.
  - reflexivity.
  - right. reflexivity.
Defined.

Lemma with_budget_title k b db k' :
  title (with_budget k b db) k' = title db k'.
Proof.
  unfold title, with_budget. cbn. destruct (decide (k = k')) as [<-|N].
  - rewrite lookup_alter_eq. by destruct (albums db !! k).
  - by rewrite lookup_alter_ne.
Qed.

Lemma with_budget_dom k b db :
  dom (albums (with_budget k b db)) = dom (albums db).
Proof. unfold with_budget. cbn. apply dom_alter_L. Qed.

(** X2. When both albums exist, [update_data] returns and sets the budget
    of album (1,1) to 100000 and of album (2,2) to 500000, whatever they
    were; singers, the other albums, the set of albums and all titles are
    as before. *)
Theorem update_data_sets_budgets instance_id database_id w db :
  w !! (instance_id, database_id) = Some db →
  is_Some (albums db !! (1, 1)) → is_Some (albums db !! (2, 2)) →
  ∃ db',
    update_data instance_id database_id w
    = (Returned tt, <[(instance_id, database_id) := db']> w,
       [EvPrint "Updated data."]) ∧
    budget db' (1, 1) = Some 100000 ∧ budget db' (2, 2) = Some 500000 ∧
    singers db' = singers db ∧
    (∀ k, k ≠ (1, 1) → k ≠ (2, 2) → albums db' !! k = albums db !! k) ∧
    dom (albums db') = dom (albums db) ∧
    (∀ k, title db' k = title db k).
Proof.
  intros H [r1 E1] [r2 E2]. exists (with_sample_budgets db).
  rewrite (update_data_on _ _ _ _ H), E1, E2.
  unfold with_sample_budgets. repeat split.
  - rewrite budget_with_budget_ne by done.
    apply budget_with_budget_eq. eauto.
  - apply budget_with_budget_eq, with_budget_is_Some. eauto.
  - intros k N1 N2. by rewrite !with_budget_lookup_ne.
  - by rewrite !with_budget_dom.
  - intros k. by rewrite !with_budget_title.
Qed.

Lemma update_data_sets_budgets_witness :
  ∃ db',
    update_data INSTANCE_ID DATABASE_ID
      (sample_world (sample_database None (Some 3)))
    = (Returned tt,
       <[(INSTANCE_ID, DATABASE_ID) := db']>
         (sample_world (sample_database None (Some 3))),
       [EvPrint "Updated data."]) ∧
    budget db' (1, 1) = Some 100000 ∧ budget db' (2, 2) = Some 500000 ∧
    singers db' = singers (sample_database None (Some 3)) ∧
    (∀ k, k ≠ (1, 1) → k ≠ (2, 2) →
       albums db' !! k = albums (sample_database None (Some 3)) !! k) ∧
    dom (albums db') = dom (albums (sample_database None (Some 3))) ∧
    (∀ k, title db' k = title (sample_database None (Some 3)) k).
Proof.
  apply update_data_sets_budgets.
  - reflexivity.
  - vm_compute. eauto.
  - vm_compute. eauto.
Defined.

Lemma with_sample_budgets_twice db :
  with_sample_budgets (with_sample_budgets db) = with_sample_budgets db.
Proof.
  unfold with_sample_budgets, with_budget. cbn. f_equal.
  apply map_eq. intros k.
  destruct (decide ((2, 2) = k)) as [<-|N2];
    [| destruct (decide ((1, 1) = k)) as [<-|N1]];
    repeat first [ rewrite lookup_alter_eq
                 | rewrite lookup_alter_ne by done ];
    try reflexivity.
  - by destruct (albums db !! (2, 2)).
  - by destruct (albums db !! (1, 1)).
Qed.

(** X3. [update_data] is idempotent: after a run that returned, a second
    run returns too, prints the same and leaves the databases as the first
    run left them. *)
Theorem update_data_idempotent instance_id database_id w w' out :
  update_data instance_id database_id w = (Returned tt, w', out) →
  update_data instance_id database_id w' = (Returned tt, w', out).
Proof.
  intros R.
  destruct (w !! (instance_id, database_id)) as [db|] eqn:H.
  2: { unfold update_data in R.
       by rewrite (on_database_missing _ _ _ _ H) in R. }
  rewrite (update_data_on _ _ _ _ H) in R.
  destruct (albums db !! (1, 1)) as [r1|] eqn:E1; [| discriminate].
  destruct (albums db !! (2, 2)) as [r2|] eqn:E2; [| discriminate].
  injection R as <- <-.
  rewrite (update_data_on _ _ _ (with_sample_budgets db))
    by apply lookup_insert_eq.
  assert (is_Some (albums (with_sample_budgets db) !! (1, 1))) as [r1' ->]
    by (unfold with_sample_budgets; eauto using with_budget_is_Some).
  assert (is_Some (albums (with_sample_budgets db) !! (2, 2))) as [r2' ->]
    by (unfold with_sample_budgets; eauto using with_budget_is_Some).
  by rewrite with_sample_budgets_twice, insert_insert_eq.
Qed.

Lemma update_data_idempotent_witness :
  update_data INSTANCE_ID DATABASE_ID
    (sample_world (sample_database (Some 100000) (Some 500000)))
  = (Returned tt,
     sample_world (sample_database (Some 100000) (Some 500000)),
     [EvPrint "Updated data."]).
Proof.
  apply (update_data_idempotent _ _
           (sample_world (sample_database None None))).
  vm_compute. reflexivity.
Defined.

(** ** [read_write_transaction]: the other failures *)

(** X4. Run on albums whose budget was never set, a NULL budget of album
    (2,2), [read_write_transaction] raises [TypeError] at the comparison of
    line 130, not the insufficient-funds error, and changes nothing. *)
Theorem null_budget_raises_type_error
    instance_id database_id conflicts final w db r2 :
  w !! (instance_id, database_id) = Some db →
  albums db !! (2, 2) = Some r2 → marketing_budget r2 = None →
  read_write_transaction instance_id database_id conflicts final w
  = (Raised TypeError, w, [read_second]).
Proof.
  intros H E N. rewrite (read_write_transaction_on _ _ _ _ _ _ H).
  rewrite (run_raised _ _ _ _ _ _ (update_albums_null_second db r2 E N)).
  by rewrite insert_id.
Qed.

Lemma null_budget_raises_type_error_witness :
  read_write_transaction INSTANCE_ID DATABASE_ID [] CommitOk
    (sample_world (sample_database None None))
  = (Raised TypeError, sample_world (sample_database None None),
     [read_second]).
Proof.
  eapply null_budget_raises_type_error.
  - reflexivity.
  - reflexivity.
  - reflexivity.
Defined.

(** X5. When album (2,2) has enough funds but album (1,1) is missing or
    has a NULL budget, the run fails after both reads, with [IndexError]
    for the missing row and [TypeError] for the NULL budget; nothing is
    written, so album (2,2) is not debited. *)
Theorem credited_row_failure
    instance_id database_id conflicts final w db second :
  w !! (instance_id, database_id) = Some db →
  budget db (2, 2) = Some second → 300000 ≤ second →
  budget db (1, 1) = None →
  read_write_transaction instance_id database_id conflicts final w
  = (Raised (match albums db !! (1, 1) with
             | Some _ => TypeError
             | None => IndexError
             end),
     w, [read_second; read_first]).
Proof.
  intros H H2 L N. rewrite (read_write_transaction_on _ _ _ _ _ _ H).
  destruct (albums db !! (1, 1)) as [r1|] eqn:E1.
  - assert (marketing_budget r1 = None) as N1
      by (unfold budget in N; by rewrite E1 in N).
    rewrite (run_raised _ _ _ _ _ _
               (update_albums_null_first db second r1 H2 L E1 N1)).
    by rewrite insert_id.
  - rewrite (run_raised _ _ _ _ _ _
               (update_albums_no_first db second H2 L E1)).
    by rewrite insert_id.
Qed.

Lemma credited_row_failure_witness :
  read_write_transaction INSTANCE_ID DATABASE_ID [] CommitOk
    (sample_world (sample_database None (Some 300000)))
  = (Raised (match albums (sample_database None (Some 300000)) !! (1, 1) with
             | Some _ => TypeError
             | None => IndexError
             end),
     sample_world (sample_database None (Some 300000)),
     [read_second; read_first]).
Proof.
  apply (credited_row_failure _ _ _ _ _ _ 300000).
  - reflexivity.
  - reflexivity.
  - lia.
  - reflexivity.
Defined.

(** ** The last line printed *)

Lemma body_never_prints_complete db r t :
  update_albums (begin db) = (r, t) →
  Forall (λ ev, ev ≠ complete_line) (trace t).
Proof.
  intros H. destruct (update_albums_cases db) as (r' & t' & E & C).
  rewrite E in H. injection H as <- <-.
  destruct C; cbn; repeat constructor; discriminate.
Qed.

Lemma run_never_prints_complete conflicts final db :
  Forall (λ ev, ev ≠ complete_line)
    (run_in_transaction update_albums conflicts final db).2.
Proof.
  revert db. induction conflicts as [|next conflicts IH]; intros db;
    destruct (update_albums (begin db)) as [[[]|e] t] eqn:E;
    pose proof (body_never_prints_complete db _ _ E) as B.
  - cbn. rewrite E. destruct final; [| done].
    by destruct (apply_mutations (staged t) db).
  - by rewrite (run_raised _ _ _ _ _ _ E).
  - rewrite (run_retry _ _ _ _ _ _ _ E). specialize (IH next).
    destruct (run_in_transaction update_albums conflicts final next)
      as [[r d] o]. cbn in *. by apply Forall_app.
  - by rewrite (run_raised _ _ _ _ _ _ E).
Qed.

(** X6. [read_write_transaction] prints "Transaction complete." exactly
    when it returns, and then as its last line: no run that raises prints
    it, whatever the retries. *)
Theorem complete_line_iff_returned
    instance_id database_id conflicts final w r w' out :
  read_write_transaction instance_id database_id conflicts final w
  = (r, w', out) →
  (complete_line ∈ out ↔ r = Returned tt) ∧
  (r = Returned tt → last out = Some complete_line).
Proof.
  intros R.
  destruct (w !! (instance_id, database_id)) as [db|] eqn:H.
  2: { unfold read_write_transaction in R.
       rewrite (on_database_missing _ _ _ _ H) in R.
       injection R as <- _ <-. split; [split |]; try discriminate.
       by intros ?%elem_of_nil. }
  rewrite (read_write_transaction_on _ _ _ _ _ _ H) in R.
  pose proof (run_never_prints_complete conflicts final db) as F.
  destruct (run_in_transaction update_albums conflicts final db)
    as [[[[]|e] db'] o]; injection R as <- _ <-; cbn in F.
  - split; [split; [done |] |].
    + intros _. apply elem_of_app. right. apply list_elem_of_here.
    + intros _. apply last_snoc.
  - split; [split |]; try discriminate.
    intros In. rewrite Forall_forall in F. by destruct (F _ In).
Qed.

Lemma complete_line_iff_returned_witness :
  (complete_line ∈ [read_second] ↔ Raised insufficient_funds = Returned tt) ∧
  (Raised insufficient_funds = Returned tt →
   last [read_second] = Some complete_line).
Proof.
  apply (complete_line_iff_returned INSTANCE_ID DATABASE_ID [] CommitOk
           (sample_world (sample_database (Some 100000) (Some 250000)))
           _ (sample_world (sample_database (Some 100000) (Some 250000)))).
  vm_compute. reflexivity.
Defined.

(** ** Transfers in a row *)

Lemma read_write_transaction_commits instance_id database_id w db first second :
  w !! (instance_id, database_id) = Some db →
  budget db (1, 1) = Some first → budget db (2, 2) = Some second →
  300000 ≤ second → fits first second = true →
  read_write_transaction instance_id database_id [] CommitOk w
  = (Returned tt,
     <[(instance_id, database_id) := transferred db first second]> w,
     trace (completed db first second) ++ [complete_line]).
Proof.
  intros H H1 H2 L F. rewrite (read_write_transaction_on _ _ _ _ _ _ H).
  by rewrite (run_commits db first second H1 H2 L F).
Qed.

(** X7. As long as the funds allow and the credited budget stays within
    INT64, [n] runs in a row all commit and move [n] times 200000: when
    album (2,2) holds at least 100000 + 200000 n and album (1,1) at most
    the largest INT64 minus 200000 n, the [n] runs return, album (1,1) ends
    with 200000 n more and album (2,2) with 200000 n less. *)
Theorem transfers_in_a_row n instance_id database_id w db first second :
  w !! (instance_id, database_id) = Some db →
  budget db (1, 1) = Some first → budget db (2, 2) = Some second →
  int64 first → int64 second →
  100000 + 200000 * Z.of_nat n ≤ second →
  first + 200000 * Z.of_nat n ≤ INT64_MAX →
  ∃ db' out,
    transfer_times n instance_id database_id w
    = (Returned tt, <[(instance_id, database_id) := db']> w, out) ∧
    budget db' (1, 1) = Some (first + 200000 * Z.of_nat n) ∧
    budget db' (2, 2) = Some (second - 200000 * Z.of_nat n).
Proof.
  revert w db first second.
  induction n as [|n IH]; intros w db first second H H1 H2 I1 I2 L M.
  - exists db, []. cbn. rewrite insert_id by done.
    by rewrite Z.add_0_r, Z.sub_0_r.
  - cbn [transfer_times].
    rewrite (read_write_transaction_commits _ _ _ _ _ _ H H1 H2)
      by in_range.
    destruct (IH (<[(instance_id, database_id) :=
                      transferred db first second]> w)
                 (transferred db first second)
                 (first + 200000) (second - 200000))
      as (db' & out & -> & B1 & B2).
    + apply lookup_insert_eq.
    + apply budget_transferred_first. eauto using budget_is_Some.
    + apply budget_transferred_second. eauto using budget_is_Some.
    + in_range.
    + in_range.
    + lia.
    + in_range.
    + exists db'. eexists. cbn. rewrite insert_insert_eq.
      split; [reflexivity |]. rewrite B1, B2. split; f_equal; lia.
Qed.

Lemma transfers_in_a_row_witness :
  ∃ db' out,
    transfer_times 2 INSTANCE_ID DATABASE_ID
      (sample_world (sample_database (Some 100000) (Some 500000)))
    = (Returned tt,
       <[(INSTANCE_ID, DATABASE_ID) := db']>
         (sample_world (sample_database (Some 100000) (Some 500000))),
       out) ∧
    budget db' (1, 1) = Some (100000 + 200000 * Z.of_nat 2) ∧
    budget db' (2, 2) = Some (500000 - 200000 * Z.of_nat 2).
Proof.
  apply (transfers_in_a_row 2 _ _ _
           (sample_database (Some 100000) (Some 500000))).
  - reflexivity.
  - reflexivity.
  - reflexivity.
  - unfold int64, INT64_MIN, INT64_MAX. lia.
  - unfold int64, INT64_MIN, INT64_MAX. lia.
  - vm_compute. discriminate.
  - vm_compute. discriminate.
Defined.

(** X8. The funds run out: when album (2,2) holds at least
    100000 + 200000 n but less than 300000 + 200000 n, and the credited
    budget stays within INT64 over [n] transfers, the first [n] runs commit
    and run [n + 1] raises the insufficient-funds error, leaving the budgets
    as the [n] transfers made them.  After [update_data], with 500000, that
    is the third run. *)
Theorem transfer_after_the_last n instance_id database_id w db first second :
  w !! (instance_id, database_id) = Some db →
  budget db (1, 1) = Some first → budget db (2, 2) = Some second →
  int64 first → int64 second →
  100000 + 200000 * Z.of_nat n ≤ second →
  second < 300000 + 200000 * Z.of_nat n →
  first + 200000 * Z.of_nat n ≤ INT64_MAX →
  ∃ db' out,
    transfer_times (S n) instance_id database_id w
    = (Raised insufficient_funds,
       <[(instance_id, database_id) := db']> w, out) ∧
    budget db' (1, 1) = Some (first + 200000 * Z.of_nat n) ∧
    budget db' (2, 2) = Some (second - 200000 * Z.of_nat n).
Proof.
  revert w db first second.
  induction n as [|n IH]; intros w db first second H H1 H2 I1 I2 L U M.
  - exists db, [read_second]. cbn [transfer_times].
    rewrite (read_write_transaction_on _ _ _ _ _ _ H).
    rewrite (run_raised _ _ _ _ _ _
               (update_albums_too_low db second H2 ltac:(lia))).
    by rewrite Z.add_0_r, Z.sub_0_r.
  - cbn [transfer_times].
    rewrite (read_write_transaction_commits _ _ _ _ _ _ H H1 H2)
      by in_range.
    destruct (IH (<[(instance_id, database_id) :=
                      transferred db first second]> w)
                 (transferred db first second)
                 (first + 200000) (second - 200000))
      as (db' & out & Eq & B1 & B2).
    + apply lookup_insert_eq.
    + apply budget_transferred_first. eauto using budget_is_Some.
    + apply budget_transferred_second. eauto using budget_is_Some.
    + in_range.
    + in_range.
    + lia.
    + lia.
    + in_range.
    + cbn [transfer_times] in Eq. rewrite Eq.
      exists db'. eexists. cbn. rewrite insert_insert_eq.
      split; [reflexivity |]. rewrite B1, B2. split; f_equal; lia.
Qed.

Lemma transfer_after_the_last_witness :
  ∃ db' out,
    transfer_times 3 INSTANCE_ID DATABASE_ID
      (sample_world (sample_database (Some 100000) (Some 500000)))
    = (Raised insufficient_funds,
       <[(INSTANCE_ID, DATABASE_ID) := db']>
         (sample_world (sample_database (Some 100000) (Some 500000))),
       out) ∧
    budget db' (1, 1) = Some (100000 + 200000 * Z.of_nat 2) ∧
    budget db' (2, 2) = Some (500000 - 200000 * Z.of_nat 2).
Proof.
  apply (transfer_after_the_last 2 _ _ _
           (sample_database (Some 100000) (Some 500000))).
  - reflexivity.
  - reflexivity.
  - reflexivity.
  - unfold int64, INT64_MIN, INT64_MAX. lia.
  - unfold int64, INT64_MIN, INT64_MAX. lia.
  - vm_compute. discriminate.
  - vm_compute. reflexivity.
  - vm_compute. discriminate.
Defined.

(** ** [insert_data] *)

Lemma write_row_insert_singer db x :
  write_row true Singers name_columns (singer_row x) db
  = match singers db !! x.1.1 with
    | Some _ => Raised AlreadyExists
    | None =>
        Returned (mkDatabase
          (<[x.1.1 := mkSinger (Some x.1.2) (Some x.2) None]> (singers db))
          (albums db))
    end.
Proof.
  destruct x as [[s f] l]. unfold write_row, singer_row. cbn [fst snd].
  assert (row_get_int name_columns [PyInt s; PyStr f; PyStr l] SingerId
          = Some s) as -> by reflexivity.
  cbn. by destruct (singers db !! s).
Qed.

Lemma write_row_insert_album db x :
  write_row true Albums title_columns (album_row x) db
  = match albums db !! (x.1.1, x.1.2) with
    | Some _ => Raised AlreadyExists
    | None =>
        if decide (is_Some (singers db !! x.1.1))
        then Returned (mkDatabase (singers db)
               (<[(x.1.1, x.1.2) := mkAlbum (Some x.2) None]> (albums db)))
        else Raised NotFound
    end.
Proof.
  destruct x as [[s a] t]. unfold write_row, album_row. cbn [fst snd].
  assert (row_get_int title_columns [PyInt s; PyInt a; PyStr t] SingerId
          = Some s) as -> by reflexivity.
  assert (row_get_int title_columns [PyInt s; PyInt a; PyStr t] AlbumId
          = Some a) as -> by reflexivity.
  cbn. destruct (albums db !! (s, a)); [reflexivity |].
  by destruct (decide (is_Some (singers db !! s))).
Qed.

(** A batch of singers that holds one that exists already fails. *)
Lemma insert_singers_exists rows db :
  Exists (λ x, is_Some (singers db !! x.1.1)) rows →
  write_rows true Singers name_columns (singer_row <$> rows) db
  = Raised AlreadyExists.
Proof.
  revert db. induction rows as [|x rows IH]; intros db Ex.
  - by apply Exists_nil in Ex.
  - cbn [fmap list_fmap write_rows]. rewrite write_row_insert_singer.
    destruct (singers db !! x.1.1) as [r|] eqn:E; [reflexivity |].
    rewrite bind_returned. apply IH.
    apply Exists_cons in Ex as [[r Ex]|Ex]; [congruence |].
    eapply Exists_impl; [exact Ex |]. cbn. intros y [r Y].
    destruct (decide (x.1.1 = y.1.1)) as [->|N].
    + rewrite lookup_insert_eq. eauto.
    + rewrite lookup_insert_ne by done. eauto.
Qed.

(** So does a batch of albums, all of singers that exist. *)
Lemma insert_albums_exists rows db :
  Forall (λ x, is_Some (singers db !! x.1.1)) rows →
  Exists (λ x, is_Some (albums db !! (x.1.1, x.1.2))) rows →
  write_rows true Albums title_columns (album_row <$> rows) db
  = Raised AlreadyExists.
Proof.
  revert db. induction rows as [|x rows IH]; intros db Par Ex.
  - by apply Exists_nil in Ex.
  - cbn [fmap list_fmap write_rows]. rewrite write_row_insert_album.
    apply Forall_cons in Par as [P Par].
    destruct (albums db !! (x.1.1, x.1.2)) as [r|] eqn:E; [reflexivity |].
    rewrite decide_True by done. rewrite bind_returned. apply IH.
    + exact Par.
    + apply Exists_cons in Ex as [[r Ex]|Ex]; [congruence |].
      eapply Exists_impl; [exact Ex |]. cbn. intros y [r Y].
      destruct (decide ((x.1.1, x.1.2) = (y.1.1, y.1.2))) as [->|N].
      * rewrite lookup_insert_eq. eauto.
      * rewrite lookup_insert_ne by done. eauto.
Qed.

Lemma insert_singers_fresh rows db :
  NoDup ((λ x, x.1.1) <$> rows) →
  Forall (λ x, singers db !! x.1.1 = None) rows →
  write_rows true Singers name_columns (singer_row <$> rows) db
  = Returned (mkDatabase (foldl add_singer (singers db) rows) (albums db)).
Proof.
  revert db. induction rows as [|x rows IH]; intros db ND Fr.
  - by destruct db.
  - cbn [fmap list_fmap write_rows]. rewrite write_row_insert_singer.
    apply Forall_cons in Fr as [-> Fr]. rewrite bind_returned.
    apply NoDup_cons in ND as [Nin ND]. rewrite IH; [reflexivity | done |].
    apply Forall_forall. intros y Y. cbn.
    rewrite lookup_insert_ne.
    + by eapply Forall_forall in Fr.
    + intros Eq. apply Nin. rewrite Eq. apply list_elem_of_fmap. eauto.
Qed.

Lemma insert_albums_fresh rows db :
  NoDup ((λ x, (x.1.1, x.1.2)) <$> rows) →
  Forall (λ x, is_Some (singers db !! x.1.1)) rows →
  Forall (λ x, albums db !! (x.1.1, x.1.2) = None) rows →
  write_rows true Albums title_columns (album_row <$> rows) db
  = Returned (mkDatabase (singers db) (foldl add_album (albums db) rows)).
Proof.
  revert db. induction rows as [|x rows IH]; intros db ND Par Fr.
  - by destruct db.
  - cbn [fmap list_fmap write_rows]. rewrite write_row_insert_album.
    apply Forall_cons in Fr as [-> Fr]. apply Forall_cons in Par as [P Par].
    rewrite decide_True by done. rewrite bind_returned.
    apply NoDup_cons in ND as [Nin ND].
    rewrite IH; [reflexivity | done | done |].
    apply Forall_forall. intros y Y. cbn.
    rewrite lookup_insert_ne.
    + by eapply Forall_forall in Fr.
    + intros Eq. apply Nin. rewrite Eq.
      apply (list_elem_of_fmap_2 (λ x, (x.1.1, x.1.2))). exact Y.
Qed.

Lemma insert_data_on instance_id database_id w db :
  w !! (instance_id, database_id) = Some db →
  insert_data instance_id database_id w
  = match
      db1 ← write_rows true Singers name_columns
              (singer_row <$> sample_singer_rows) db;
      write_rows true Albums title_columns
        (album_row <$> sample_album_rows) db1
    with
    | Returned db' =>
        (Returned tt, <[(instance_id, database_id) := db']> w,
         [EvPrint "Inserted data."])
    | Raised e => (Raised e, w, [])
    end.
Proof.
  intros H. unfold insert_data. rewrite (on_database_lookup _ _ _ _ _ H).
  unfold batch.
  change (apply_mutations _ db) with
    (db1 ← write_rows true Singers name_columns
             (singer_row <$> sample_singer_rows) db;
     db2 ← write_rows true Albums title_columns
             (album_row <$> sample_album_rows) db1;
     Returned db2).
  destruct (write_rows true Singers name_columns
              (singer_row <$> sample_singer_rows) db) as [db1|e];
    [| cbn; by rewrite insert_id].
  rewrite !bind_returned.
  destruct (write_rows true Albums title_columns
              (album_row <$> sample_album_rows) db1) as [db2|e];
    [reflexivity | cbn; by rewrite insert_id].
Qed.

Lemma sample_singers_fresh db :
  Forall (λ s, singers db !! s = None) inserted_singers →
  write_rows true Singers name_columns (singer_row <$> sample_singer_rows) db
  = Returned (mkDatabase (singers (with_sample_rows db)) (albums db)).
Proof.
  intros Fr. rewrite insert_singers_fresh; [reflexivity | compute_done |].
  change inserted_singers with ((λ x, x.1.1) <$> sample_singer_rows) in Fr.
  by apply Forall_fmap in Fr.
Qed.

Lemma sample_rows_fresh db :
  Forall (λ s, singers db !! s = None) inserted_singers →
  Forall (λ k, albums db !! k = None) inserted_albums →
  (db1 ← write_rows true Singers name_columns
           (singer_row <$> sample_singer_rows) db;
   write_rows true Albums title_columns (album_row <$> sample_album_rows) db1)
  = Returned (with_sample_rows db).
Proof.
  intros FrS FrA. rewrite (sample_singers_fresh db FrS), bind_returned.
  rewrite insert_albums_fresh; [reflexivity | compute_done | |].
  - cbn [singers with_sample_rows]. repeat constructor; cbn [fst snd].
    all: repeat first [ rewrite lookup_insert_eq
                      | rewrite lookup_insert_ne by done ]; eauto.
  - change inserted_albums
      with ((λ x, (x.1.1, x.1.2)) <$> sample_album_rows) in FrA.
    by apply Forall_fmap in FrA.
Qed.

Lemma Exists_keys {A B : Type} (f : A → B) (P : B → Prop) l :
  Exists P (f <$> l) → Exists (λ x, P (f x)) l.
Proof.
  intros H. apply Exists_exists in H as (y & In & Py).
  apply list_elem_of_fmap in In as (x & -> & Inx).
  apply Exists_exists. eauto.
Qed.

(** X9. On a database that has none of the five singers and none of the
    five albums, [insert_data] returns and adds them; every row that was
    there is kept as it was, and the new albums have no budget. *)
Theorem insert_data_adds_rows instance_id database_id w db :
  w !! (instance_id, database_id) = Some db →
  Forall (λ s, singers db !! s = None) inserted_singers →
  Forall (λ k, albums db !! k = None) inserted_albums →
  insert_data instance_id database_id w
  = (Returned tt, <[(instance_id, database_id) := with_sample_rows db]> w,
     [EvPrint "Inserted data."]) ∧
  (∀ s r, singers db !! s = Some r →
     singers (with_sample_rows db) !! s = Some r) ∧
  (∀ k r, albums db !! k = Some r →
     albums (with_sample_rows db) !! k = Some r) ∧
  Forall (λ s, is_Some (singers (with_sample_rows db) !! s)) inserted_singers ∧
  Forall (λ k, read_budget (with_sample_rows db) k = Some None)
    inserted_albums.
Proof.
  intros H FrS FrA. split; [| split; [| split; [| split]]].
  - by rewrite (insert_data_on _ _ _ _ H), (sample_rows_fresh db FrS FrA).
  - intros s r E. cbn [singers with_sample_rows].
    rewrite !lookup_insert_ne; [done | |..];
      intros <-; rewrite Forall_forall in FrS;
      (rewrite FrS in E; [discriminate | compute_done]).
  - intros k r E. cbn [albums with_sample_rows].
    rewrite !lookup_insert_ne; [done | |..];
      intros <-; rewrite Forall_forall in FrA;
      (rewrite FrA in E; [discriminate | compute_done]).
  - cbn [singers with_sample_rows]. repeat constructor.
    all: repeat first [ rewrite lookup_insert_eq
                      | rewrite lookup_insert_ne by done ]; eauto.
  - unfold read_budget. cbn [albums with_sample_rows]. repeat constructor.
    all: repeat first [ rewrite lookup_insert_eq
                      | rewrite lookup_insert_ne by done ]; reflexivity.
Qed.

Lemma insert_data_adds_rows_witness :
  insert_data INSTANCE_ID DATABASE_ID (sample_world empty_database)
  = (Returned tt,
     <[(INSTANCE_ID, DATABASE_ID) := with_sample_rows empty_database]>
       (sample_world empty_database),
     [EvPrint "Inserted data."]) ∧
  (∀ s r, singers empty_database !! s = Some r →
     singers (with_sample_rows empty_database) !! s = Some r) ∧
  (∀ k r, albums empty_database !! k = Some r →
     albums (with_sample_rows empty_database) !! k = Some r) ∧
  Forall (λ s, is_Some (singers (with_sample_rows empty_database) !! s))
    inserted_singers ∧
  Forall (λ k, read_budget (with_sample_rows empty_database) k = Some None)
    inserted_albums.
Proof.
  apply insert_data_adds_rows.
  - reflexivity.
  - repeat constructor.
  - repeat constructor.
Defined.

(** X10. When one of the five singers or one of the five albums is there
    already, [insert_data] raises [AlreadyExists], prints nothing and
    changes nothing: none of the other rows of the batch is inserted. *)
Theorem insert_data_existing_row instance_id database_id w db :
  w !! (instance_id, database_id) = Some db →
  Exists (λ s, is_Some (singers db !! s)) inserted_singers ∨
  Exists (λ k, is_Some (albums db !! k)) inserted_albums →
  insert_data instance_id database_id w = (Raised AlreadyExists, w, []).
Proof.
  intros H Ex. rewrite (insert_data_on _ _ _ _ H).
  destruct (decide (Exists (λ s, is_Some (singers db !! s)) inserted_singers))
    as [ExS|NS].
  - rewrite insert_singers_exists; [reflexivity |].
    change inserted_singers with ((λ x, x.1.1) <$> sample_singer_rows) in ExS.
    by apply Exists_keys in ExS.
  - destruct Ex as [ExS|ExA]; [done |].
    apply not_Exists_Forall in NS; [| apply _].
    assert (Forall (λ s, singers db !! s = None) inserted_singers) as FrS.
    { eapply Forall_impl; [exact NS |]. cbn. intros s.
      by rewrite eq_None_not_Some. }
    rewrite (sample_singers_fresh db FrS), bind_returned.
    rewrite insert_albums_exists; [reflexivity | |].
    + cbn [singers with_sample_rows]. repeat constructor; cbn [fst snd].
      all: repeat first [ rewrite lookup_insert_eq
                        | rewrite lookup_insert_ne by done ]; eauto.
    + change inserted_albums
        with ((λ x, (x.1.1, x.1.2)) <$> sample_album_rows) in ExA.
      by apply Exists_keys in ExA.
Qed.

Lemma insert_data_existing_row_witness :
  insert_data INSTANCE_ID DATABASE_ID
    (sample_world (mkDatabase ∅ {[ (2, 3) := mkAlbum None None ]}))
  = (Raised AlreadyExists,
     sample_world (mkDatabase ∅ {[ (2, 3) := mkAlbum None None ]}), []).
Proof.
  eapply insert_data_existing_row.
  - reflexivity.
  - right. unfold inserted_albums. do 4 apply Exists_cons_tl.
    apply Exists_cons_hd. vm_compute. eauto.
Defined.

Lemma insert_albums_singers rows d d' :
  write_rows true Albums title_columns (album_row <$> rows) d = Returned d' →
  singers d' = singers d.
Proof.
  revert d. induction rows as [|x rows IH]; intros d W.
  - cbn in W. by injection W as <-.
  - cbn [fmap list_fmap write_rows] in W.
    rewrite write_row_insert_album in W.
    destruct (albums d !! (x.1.1, x.1.2)); [by cbn in W |].
    destruct (decide (is_Some (singers d !! x.1.1))); [| by cbn in W].
    rewrite bind_returned in W. by apply IH in W.
Qed.

(** X11. [insert_data] cannot be run twice: after a run that returned, a
    second run raises [AlreadyExists] and leaves the databases as the first
    run left them. *)
Theorem insert_data_twice instance_id database_id w w' out :
  insert_data instance_id database_id w = (Returned tt, w', out) →
  insert_data instance_id database_id w' = (Raised AlreadyExists, w', []).
Proof.
  intros R.
  destruct (w !! (instance_id, database_id)) as [db|] eqn:H.
  2: { unfold insert_data in R.
       by rewrite (on_database_missing _ _ _ _ H) in R. }
  rewrite (insert_data_on _ _ _ _ H) in R.
  destruct (write_rows true Singers name_columns
              (singer_row <$> sample_singer_rows) db) as [db1|e] eqn:W1;
    [rewrite bind_returned in R | discriminate].
  destruct (write_rows true Albums title_columns
              (album_row <$> sample_album_rows) db1) as [db2|e] eqn:W2;
    [| discriminate].
  injection R as <- _.
  rewrite (insert_data_on _ _ _ db2) by apply lookup_insert_eq.
  rewrite insert_singers_exists; [reflexivity |].
  destruct (decide (Exists (λ s, is_Some (singers db !! s)) inserted_singers))
    as [ExS|NS].
  { rewrite insert_singers_exists in W1; [discriminate |].
    change inserted_singers with ((λ x, x.1.1) <$> sample_singer_rows) in ExS.
    by apply Exists_keys in ExS. }
  apply not_Exists_Forall in NS; [| apply _].
  assert (Forall (λ s, singers db !! s = None) inserted_singers) as FrS.
  { eapply Forall_impl; [exact NS |]. cbn. intros s.
    by rewrite eq_None_not_Some. }
  rewrite (sample_singers_fresh db FrS) in W1. injection W1 as <-.
  apply insert_albums_singers in W2 as S2. cbn [singers] in S2.
  apply Exists_cons_hd. cbn [fst]. rewrite S2.
  cbn [singers with_sample_rows].
  rewrite !lookup_insert_ne by done. rewrite lookup_insert_eq. eauto.
Qed.

Lemma insert_data_twice_witness :
  insert_data INSTANCE_ID DATABASE_ID
    (sample_world (sample_database None None))
  = (Raised AlreadyExists, sample_world (sample_database None None), []).
Proof.
  apply (insert_data_twice _ _ (sample_world empty_database) _
           [EvPrint "Inserted data."]).
  vm_compute. reflexivity.
Defined.

(** ** The samples in the order of lines 211-234 *)

Lemma albums_with_sample_rows db :
  albums (with_sample_rows db) !! (1, 1)
  = Some (mkAlbum (Some "Total Junk") None) ∧
  albums (with_sample_rows db) !! (2, 2)
  = Some (mkAlbum (Some "Forever Hold Your Peace") None).
Proof.
  cbn [albums with_sample_rows].
  split; repeat first [ rewrite lookup_insert_eq
                      | rewrite lookup_insert_ne by done ]; reflexivity.
Qed.

(** X12. The samples that write, in the order of lines 211-234, on a
    database without the sample rows and with the column of [add_column] in
    place: [insert_data] returns, [update_data] returns, and
    [read_write_transaction] then commits and leaves 300000 in both albums,
    whatever else the database holds. *)
Theorem samples_in_order instance_id database_id w db :
  w !! (instance_id, database_id) = Some db →
  Forall (λ s, singers db !! s = None) inserted_singers →
  Forall (λ k, albums db !! k = None) inserted_albums →
  ∃ w1 w2 db3 out,
    insert_data instance_id database_id w
    = (Returned tt, w1, [EvPrint "Inserted data."]) ∧
    update_data instance_id database_id w1
    = (Returned tt, w2, [EvPrint "Updated data."]) ∧
    read_write_transaction instance_id database_id [] CommitOk w2
    = (Returned tt, <[(instance_id, database_id) := db3]> w, out) ∧
    budget db3 (1, 1) = Some 300000 ∧ budget db3 (2, 2) = Some 300000.
Proof.
  intros H FrS FrA.
  destruct (albums_with_sample_rows db) as [A1 A2].
  set (db1 := with_sample_rows db) in *.
  set (db2 := with_sample_budgets db1).
  assert (budget db2 (1, 1) = Some 100000) as B1.
  { unfold db2, with_sample_budgets. rewrite budget_with_budget_ne by done.
    apply budget_with_budget_eq. eauto. }
  assert (budget db2 (2, 2) = Some 500000) as B2.
  { unfold db2, with_sample_budgets.
    apply budget_with_budget_eq, with_budget_is_Some. eauto. }
  exists (<[(instance_id, database_id) := db1]> w),
    (<[(instance_id, database_id) := db2]> w),
    (transferred db2 100000 500000). eexists.
  split; [| split; [| split; [| split]]].
  - by rewrite (insert_data_on _ _ _ _ H), (sample_rows_fresh db FrS FrA).
  - rewrite (update_data_on _ _ _ db1) by apply lookup_insert_eq.
    by rewrite A1, A2, insert_insert_eq.
  - rewrite (read_write_transaction_commits _ _ _ db2 100000 500000);
      [| apply lookup_insert_eq | done | done | lia | reflexivity].
    by rewrite insert_insert_eq.
  - apply budget_transferred_first. eauto using budget_is_Some.
  - apply budget_transferred_second. eauto using budget_is_Some.
Qed.

Lemma samples_in_order_witness :
  ∃ w1 w2 db3 out,
    insert_data INSTANCE_ID DATABASE_ID (sample_world empty_database)
    = (Returned tt, w1, [EvPrint "Inserted data."]) ∧
    update_data INSTANCE_ID DATABASE_ID w1
    = (Returned tt, w2, [EvPrint "Updated data."]) ∧
    read_write_transaction INSTANCE_ID DATABASE_ID [] CommitOk w2
    = (Returned tt,
       <[(INSTANCE_ID, DATABASE_ID) := db3]> (sample_world empty_database),
       out) ∧
    budget db3 (1, 1) = Some 300000 ∧ budget db3 (2, 2) = Some 300000.
Proof.
  apply (samples_in_order _ _ _ empty_database).
  - reflexivity.
  - repeat constructor.
  - repeat constructor.
Defined.

(** ** [read_data] and [query_data] *)

#[local] Instance key_le_total : Total key_le.
Proof. intros [a1 a2] [b1 b2]. unfold key_le. cbn. lia. Qed.

#[local] Instance key_le_trans : Transitive key_le.
Proof. intros [a1 a2] [b1 b2] [c1 c2]. unfold key_le. cbn. lia. Qed.

Lemma album_keys_elem_of db k :
  k ∈ album_keys db ↔ is_Some (albums db !! k).
Proof.
  unfold album_keys. rewrite merge_sort_Permutation, elem_of_elements.
  apply elem_of_dom.
Qed.

Lemma album_keys_NoDup db : NoDup (album_keys db).
Proof.
  unfold album_keys. rewrite merge_sort_Permutation. apply NoDup_elements.
Qed.

(** The row that a read of the three columns gives for the album under
    [k]. *)
Lemma select_row_titles db k r :
  albums db !! k = Some r →
  select_row db Albums title_columns (key_tuple k)
  = Some [[PyInt k.1; PyInt k.2; of_str (title db k)]].
Proof.
  destruct k as [s a]. intros E.
  unfold select_row, key_tuple, title, title_columns. cbn. by rewrite E.
Qed.

Lemma select_cons db table columns key keys :
  select db table columns (key :: keys)
  = rows ← select_row db table columns key;
    rest ← select db table columns keys;
    Some (rows ++ rest).
Proof.
  unfold select. cbn.
  destruct (select_row db table columns key); [cbn | reflexivity].
  by destruct (mapM (select_row db table columns) keys).
Qed.

Lemma select_titles db keys :
  Forall (λ k, is_Some (albums db !! k)) keys →
  select db Albums title_columns (key_tuple <$> keys)
  = Some ((λ k, [PyInt k.1; PyInt k.2; of_str (title db k)]) <$> keys).
Proof.
  induction keys as [|k keys IH]; intros F; [reflexivity |].
  apply Forall_cons in F as [[r E] F].
  cbn [fmap list_fmap]. rewrite select_cons, (select_row_titles db k r E).
  cbn. change (list_fmap _ _ key_tuple keys) with (key_tuple <$> keys).
  by rewrite IH.
Qed.

Lemma print_rows_titles db keys :
  print_rows ((λ k, [PyInt k.1; PyInt k.2; of_str (title db k)]) <$> keys)
  = (Returned tt, album_line db <$> keys).
Proof.
  induction keys as [|k keys IH]; [reflexivity |].
  cbn [fmap list_fmap print_rows format_album].
  change (list_fmap _ _ ?f keys) with (f <$> keys). by rewrite IH.
Qed.

(** Both samples print the lines of the keys they are given. *)
Lemma print_results_titles db keys :
  Forall (λ k, is_Some (albums db !! k)) keys →
  print_results
    (of_option BadRequest
       (select db Albums title_columns (key_tuple <$> keys))) db
  = (Returned tt, db, album_line db <$> keys).
Proof.
  intros F. rewrite (select_titles db keys F). cbn [of_option print_results].
  by rewrite print_rows_titles.
Qed.

Lemma read_data_on instance_id database_id w db :
  w !! (instance_id, database_id) = Some db →
  read_data instance_id database_id w
  = (Returned tt, w, album_line db <$> album_keys db).
Proof.
  intros H. unfold read_data, snapshot_read_all_albums.
  rewrite (on_database_lookup _ _ _ _ _ H), print_results_titles.
  - by rewrite insert_id.
  - apply Forall_forall. intros k. apply album_keys_elem_of.
Qed.

(** X13. On an existing database [read_data] returns, changes nothing and
    prints one line per album, in the order of the primary key: the keys of
    the lines are sorted, without repetition, and are the keys of the
    albums. *)
Theorem read_data_lists_albums instance_id database_id w db :
  w !! (instance_id, database_id) = Some db →
  read_data instance_id database_id w
  = (Returned tt, w, album_line db <$> album_keys db) ∧
  StronglySorted key_le (album_keys db) ∧
  NoDup (album_keys db) ∧
  (∀ k, k ∈ album_keys db ↔ is_Some (albums db !! k)).
Proof.
  intros H. split; [by apply read_data_on |].
  split; [apply StronglySorted_merge_sort; apply _ |].
  split; [apply album_keys_NoDup | apply album_keys_elem_of].
Qed.

Lemma read_data_lists_albums_witness :
  read_data INSTANCE_ID DATABASE_ID (sample_world (sample_database None None))
  = (Returned tt, sample_world (sample_database None None),
     album_line (sample_database None None)
       <$> album_keys (sample_database None None)) ∧
  StronglySorted key_le (album_keys (sample_database None None)) ∧
  NoDup (album_keys (sample_database None None)) ∧
  (∀ k, k ∈ album_keys (sample_database None None)
        ↔ is_Some (albums (sample_database None None) !! k)).
Proof.
  apply read_data_lists_albums. reflexivity.
Defined.

Example read_data_sample :
  read_data INSTANCE_ID DATABASE_ID (sample_world (sample_database None None))
  = (Returned tt, sample_world (sample_database None None),
     [EvPrint "SingerId: 1, AlbumId: 1, AlbumTitle: Total Junk";
      EvPrint "SingerId: 1, AlbumId: 2, AlbumTitle: Go, Go, Go";
      EvPrint "SingerId: 2, AlbumId: 1, AlbumTitle: Green";
      EvPrint "SingerId: 2, AlbumId: 2, AlbumTitle: Forever Hold Your Peace";
      EvPrint "SingerId: 2, AlbumId: 3, AlbumTitle: Terrified"]).
Proof. vm_compute. reflexivity. Qed.

Lemma album_lines_same db db' :
  dom (albums db') = dom (albums db) →
  (∀ k, title db' k = title db k) →
  album_line db' <$> album_keys db' = album_line db <$> album_keys db.
Proof.
  intros D T. unfold album_keys. rewrite D.
  apply list_fmap_ext. intros i k _. unfold album_line. by rewrite T.
Qed.

Lemma read_write_transaction_returned instance_id database_id w w' out :
  read_write_transaction instance_id database_id [] CommitOk w
  = (Returned tt, w', out) →
  ∃ db first second,
    w !! (instance_id, database_id) = Some db ∧
    budget db (1, 1) = Some first ∧ budget db (2, 2) = Some second ∧
    300000 ≤ second ∧
    w' = <[(instance_id, database_id) := transferred db first second]> w.
Proof.
  intros R.
  destruct (w !! (instance_id, database_id)) as [db|] eqn:H.
  2: { unfold read_write_transaction in R.
       by rewrite (on_database_missing _ _ _ _ H) in R. }
  rewrite (read_write_transaction_on _ _ _ _ _ _ H) in R.
  destruct (update_albums_cases db) as (r & t & E & C).
  run_case R E C CommitOk; try discriminate.
  injection R as <- _. by exists db, first, second.
Qed.

Lemma update_data_returned instance_id database_id w w' out :
  update_data instance_id database_id w = (Returned tt, w', out) →
  ∃ db,
    w !! (instance_id, database_id) = Some db ∧
    w' = <[(instance_id, database_id) := with_sample_budgets db]> w.
Proof.
  intros R.
  destruct (w !! (instance_id, database_id)) as [db|] eqn:H.
  2: { unfold update_data in R.
       by rewrite (on_database_missing _ _ _ _ H) in R. }
  rewrite (update_data_on _ _ _ _ H) in R.
  destruct (albums db !! (1, 1)); [| discriminate].
  destruct (albums db !! (2, 2)); [| discriminate].
  injection R as <- _. by exists db.
Qed.

(** X14. Budgets are not part of what [read_data] prints: after
    [update_data] or a [read_write_transaction] that returned, it prints
    the lines it printed before. *)
Theorem read_data_after_budget_change instance_id database_id w w' out :
  update_data instance_id database_id w = (Returned tt, w', out) ∨
  read_write_transaction instance_id database_id [] CommitOk w
  = (Returned tt, w', out) →
  read_data instance_id database_id w'
  = (Returned tt, w', (read_data instance_id database_id w).2).
Proof.
  intros [R|R].
  - apply update_data_returned in R as (db & H & ->).
    rewrite (read_data_on _ _ _ (with_sample_budgets db))
      by apply lookup_insert_eq.
    rewrite (read_data_on _ _ _ _ H). cbn. f_equal.
    apply album_lines_same; unfold with_sample_budgets.
    + by rewrite !with_budget_dom.
    + intros k. by rewrite !with_budget_title.
  - apply read_write_transaction_returned in R
      as (db & first & second & H & _ & _ & _ & ->).
    rewrite (read_data_on _ _ _ (transferred db first second))
      by apply lookup_insert_eq.
    rewrite (read_data_on _ _ _ _ H). cbn. f_equal.
    apply album_lines_same; unfold transferred.
    + by rewrite !with_budget_dom.
    + intros k. by rewrite !with_budget_title.
Qed.

Lemma read_data_after_budget_change_witness :
  read_data INSTANCE_ID DATABASE_ID
    (sample_world (sample_database (Some 300000) (Some 300000)))
  = (Returned tt,
     sample_world (sample_database (Some 300000) (Some 300000)),
     (read_data INSTANCE_ID DATABASE_ID
        (sample_world (sample_database (Some 100000) (Some 500000)))).2).
Proof.
  eapply read_data_after_budget_change.
  right. vm_compute. reflexivity.
Defined.

(** X15. [query_data] prints the lines that [read_data] prints, in the
    order in which the engine yields the rows: on an existing database it
    returns, changes nothing, and its lines are a permutation of those of
    [read_data]. *)
Theorem query_data_same_lines scan instance_id database_id w db :
  (∀ l, scan l ≡ₚ l) →
  w !! (instance_id, database_id) = Some db →
  ∃ lines,
    query_data scan instance_id database_id w = (Returned tt, w, lines) ∧
    lines ≡ₚ (read_data instance_id database_id w).2.
Proof.
  intros P H. exists (album_line db <$> scan (elements (dom (albums db)))).
  split.
  - unfold query_data, execute_select_albums.
    rewrite (on_database_lookup _ _ _ _ _ H), print_results_titles.
    + by rewrite insert_id.
    + apply Forall_forall. intros k. rewrite P, elem_of_elements.
      apply elem_of_dom.
  - rewrite (read_data_on _ _ _ _ H). cbn. apply fmap_Permutation.
    unfold album_keys. by rewrite P, merge_sort_Permutation.
Qed.

Lemma query_data_same_lines_witness :
  ∃ lines,
    query_data reverse INSTANCE_ID DATABASE_ID
      (sample_world (sample_database None None))
    = (Returned tt, sample_world (sample_database None None), lines) ∧
    lines ≡ₚ (read_data INSTANCE_ID DATABASE_ID
                (sample_world (sample_database None None))).2.
Proof.
  apply (query_data_same_lines reverse _ _ _ (sample_database None None)).
  - intros l. apply reverse_Permutation.
  - reflexivity.
Defined.

(** ** Retried attempts *)

Lemma can_transfer_budgets db :
  can_transfer db = true →
  ∃ first second,
    budget db (1, 1) = Some first ∧ budget db (2, 2) = Some second ∧
    300000 ≤ second.
Proof.
  unfold can_transfer. intros C.
  destruct (budget db (1, 1)) as [first|]; [| discriminate].
  destruct (budget db (2, 2)) as [second|]; [| discriminate].
  apply bool_decide_eq_true in C. eauto.
Qed.

(** X16. What an attempt prints and calls is not undone when the store
    answers its commit with a conflict: when the database given and those
    left by [n] such conflicts all allow the transfer, and the two new
    budgets of the last attempt are INT64 values, the run returns after
    [n + 1] attempts, its trace holds [n + 1] calls of [update], and the
    database is the last one read with one transfer applied. *)
Theorem aborted_attempts_stay_in_trace conflicts db first second :
  Forall (λ d, can_transfer d = true) (db :: conflicts) →
  budget (last_read conflicts db) (1, 1) = Some first →
  budget (last_read conflicts db) (2, 2) = Some second →
  fits first second = true →
  ∃ out,
    run_in_transaction update_albums conflicts CommitOk db
    = (Returned tt, transferred (last_read conflicts db) first second, out) ∧
    length (update_calls out) = S (length conflicts).
Proof.
  revert db. induction conflicts as [|next conflicts IH]; intros db F B1 B2 I;
    apply Forall_cons in F as [C F];
    apply can_transfer_budgets in C as (first' & second' & H1 & H2 & L).
  - unfold last_read in B1, B2. cbn in B1, B2.
    assert (first' = first) as -> by congruence.
    assert (second' = second) as -> by congruence.
    eexists. by rewrite (run_commits db first second H1 H2 L I).
  - rewrite last_read_cons in *.
    destruct (IH next F B1 B2 I) as (out & R & N).
    eexists.
    rewrite (run_retry _ _ _ _ _ _ _
               (update_albums_returns db first' second' H1 H2 L)), R.
    cbn [after]. split; [reflexivity |].
    unfold update_calls in *. rewrite filter_app, length_app, N.
    reflexivity.
Qed.

Lemma aborted_attempts_stay_in_trace_witness :
  ∃ out,
    run_in_transaction update_albums
      [sample_database (Some 1) (Some 400000)] CommitOk
      (sample_database (Some 100000) (Some 500000))
    = (Returned tt,
       transferred
         (last_read [sample_database (Some 1) (Some 400000)]
            (sample_database (Some 100000) (Some 500000))) 1 400000,
       out) ∧
    length (update_calls out)
    = S (length [sample_database (Some 1) (Some 400000)]).
Proof.
  apply aborted_attempts_stay_in_trace.
  - repeat constructor.
  - reflexivity.
  - reflexivity.
  - reflexivity.
Defined.

(** ** A credit beyond INT64 *)

(** X17. A transfer that would take the credited budget above the largest
    INT64 is refused at commit: the body has read both rows, printed the
    new budgets and called [update]; then the run raises the store's error,
    the databases are as they were, album (2,2) is not debited and
    "Transaction complete." is not printed. *)
Theorem commit_refused_outside_int64
    instance_id database_id w db first second :
  w !! (instance_id, database_id) = Some db →
  budget db (1, 1) = Some first → budget db (2, 2) = Some second →
  300000 ≤ second →
  INT64_MAX < first + 200000 →
  read_write_transaction instance_id database_id [] CommitOk w
  = (Raised BadRequest, w,
     [read_second; read_first; EvPrint (setting_line first second);
      EvUpdate Albums key_and_budget (new_values first second)]).
Proof.
  intros H H1 H2 L M. rewrite (read_write_transaction_on _ _ _ _ _ _ H).
  rewrite (run_rejected db first second H1 H2 L).
  - by rewrite insert_id.
  - unfold fits. apply andb_false_iff. left.
    apply bool_decide_eq_false. unfold int64. lia.
Qed.

Lemma commit_refused_outside_int64_witness :
  read_write_transaction INSTANCE_ID DATABASE_ID [] CommitOk
    (sample_world (sample_database (Some 9223372036854675808) (Some 300000)))
  = (Raised BadRequest,
     sample_world (sample_database (Some 9223372036854675808) (Some 300000)),
     [read_second; read_first;
      EvPrint (setting_line 9223372036854675808 300000);
      EvUpdate Albums key_and_budget
        (new_values 9223372036854675808 300000)]).
Proof.
  apply (commit_refused_outside_int64 _ _ _
           (sample_database (Some 9223372036854675808) (Some 300000))).
  - reflexivity.
  - reflexivity.
  - reflexivity.
  - lia.
  - unfold INT64_MAX. lia.
Defined.
